(** * Bedrock model discovery and access-gap pipeline

    A shallow embedding of
    [chrome-extension/src/background/services/aws-model-discovery.ts] and of
    the region fan-out of [fetchBedrockModels] in
    [chrome-extension/src/background/agent/helper.ts].

    Conventions of the embedding.
    - A JavaScript string is a [string]: a sequence of code units below 256
      (the Latin-1 range), which is where every identifier, header and pattern
      of the program lives.  [toLowerCase], [trim] and the regular expression
      classes [\d] and [\s] are written out on that range.
    - [async]/[await] is sequential composition.  A promise that rejects and a
      statement that throws are both [Thrown]; [try]/[catch] is [tryCatch].
    - The network, the DOM parser and the extension storage are the fields of
      a [Network] record: what each request answers within one run.
    - [Set] and [Map] keep insertion order, as in JavaScript: a [Set] is a list
      without duplicates and a [Map] an association list, both extended at
      the end.
    - [createSignedFetcher] only builds the request function: it sends
      nothing and does not throw.  Within one run a request is answered by
      what it asks (credentials, region, query), so a [Network] gives each
      answer as a function of those.
    - The body of an answer has the shape the code reads, optional fields
      being options and identifiers strings; a body the code cannot read
      makes the reading block throw before it writes anything, as [json()]
      throwing does, and is covered by that case.
    - [console.log] and [console.error] have no effect on any value and are
      left out. *)

From Stdlib Require Import Ascii NArith Lia.
From Stdlib Require String DecimalString.
From stdpp Require Import base list strings sorting.

Local Open Scope bool_scope.

(** ** Strings *)

Module Js.

Definition code (c : ascii) : nat := nat_of_ascii c.

(** The class [\d] of a regular expression without the [u] flag. *)
Definition isDigit (c : ascii) : bool :=
  (48 <=? code c) && (code c <=? 57).

(** White space of [String.prototype.trim] and of [\s], below 256. *)
Definition isSpace (c : ascii) : bool :=
  ((9 <=? code c) && (code c <=? 13)) || (code c =? 32) || (code c =? 160).

Definition lowerChar (c : ascii) : ascii :=
  let n := code c in
  if ((65 <=? n) && (n <=? 90))
     || ((192 <=? n) && (n <=? 222) && negb (n =? 215))
  then ascii_of_nat (n + 32) else c.

Fixpoint toLowerCase (s : string) : string :=
  match s with
  | EmptyString => EmptyString
  | String c s' => String (lowerChar c) (toLowerCase s')
  end.

(** [s.includes(needle)], which is also [/needle/.test(s)] for a pattern
    made of literal characters only. *)
Fixpoint includes (s needle : string) : bool :=
  String.prefix needle s
  || match s with
     | EmptyString => false
     | String _ s' => includes s' needle
     end.

Fixpoint trimStart (s : string) : string :=
  match s with
  | EmptyString => EmptyString
  | String c s' => if isSpace c then trimStart s' else s
  end.

Definition trim (s : string) : string :=
  String.rev (trimStart (String.rev (trimStart s))).

(** [s.substring(a, b)] for [a <= b]. *)
Definition substring (a b : nat) (s : string) : string :=
  String.substring a (b - a) s.

(** [s.split(sep)] for a one-character separator: never the empty list. *)
Fixpoint splitChar (sep : ascii) (s : string) : list string :=
  match s with
  | EmptyString => [EmptyString]
  | String c s' =>
      if Ascii.eqb c sep then EmptyString :: splitChar sep s'
      else match splitChar sep s' with
           | piece :: rest => String c piece :: rest
           | [] => [String c EmptyString]
           end
  end.

(** [s.split(/\s+/)]: the pieces between the maximal runs of white space.
    [inRun] says that the previous character was white space. *)
Fixpoint splitSpacesGo (inRun : bool) (s : string) : list string :=
  match s with
  | EmptyString => [EmptyString]
  | String c s' =>
      if isSpace c then
        if inRun then splitSpacesGo true s'
        else EmptyString :: splitSpacesGo true s'
      else match splitSpacesGo false s' with
           | piece :: rest => String c piece :: rest
           | [] => [String c EmptyString]
           end
  end.

Definition splitSpaces : string -> list string := splitSpacesGo false.

Definition join (sep : string) (l : list string) : string :=
  match l with
  | [] => EmptyString
  | x :: l' => fold_left (fun acc y => acc +:+ sep +:+ y) l' x
  end.

(** A value used as a condition: [undefined] and the empty string are falsy. *)
Definition truthy (o : option string) : option string :=
  match o with
  | Some s => if String.eqb s EmptyString then None else Some s
  | None => None
  end.

(** [new Set()], [set.add(x)], [set.has(x)], [Array.from(set)]. *)
Definition setAdd (x : string) (s : list string) : list string :=
  if decide (x ∈ s) then s else s ++ [x].

Definition setHas (x : string) (s : list string) : bool :=
  bool_decide (x ∈ s).

Definition setAddAll (l s : list string) : list string :=
  fold_left (fun s x => setAdd x s) l s.

Definition setOf (l : list string) : list string := setAddAll l [].

(** [array.sort()] with the default comparison, on strings: code unit order. *)
Definition sort (l : list string) : list string :=
  merge_sort String.le l.

(** [new Map()], [map.has(k)], [map.set(k, v)]; [mapPush k x] is
    [map.get(k).push(x)], which changes the array the map holds. *)
Definition mapHas {V} (k : string) (m : list (string * V)) : bool :=
  existsb (fun kv => String.eqb (fst kv) k) m.

Fixpoint mapSet {V} (k : string) (v : V) (m : list (string * V))
  : list (string * V) :=
  match m with
  | [] => [(k, v)]
  | (k', v') :: m' =>
      if String.eqb k' k then (k', v) :: m' else (k', v') :: mapSet k v m'
  end.

Fixpoint mapPush (k x : string) (m : list (string * list string))
  : list (string * list string) :=
  match m with
  | [] => []
  | (k', v') :: m' =>
      if String.eqb k' k then (k', v' ++ [x]) :: m'
      else (k', v') :: mapPush k x m'
  end.

End Js.

(** ** Effects: mutable locals and exceptions *)

Inductive outcome (A : Type) : Type :=
  | Returned (a : A)
  | Thrown (e : string).
Arguments Returned {A} a.
Arguments Thrown {A} e.

(** A block of statements over the mutable locals [S].  What a block has
    written before it throws stays written. *)
Definition Eff (S A : Type) : Type := S -> outcome A * S.

Definition ret {S A} (a : A) : Eff S A := fun s => (Returned a, s).

Definition throw {S A} (e : string) : Eff S A := fun s => (Thrown e, s).

Definition bind {S A B} (m : Eff S A) (k : A -> Eff S B) : Eff S B :=
  fun s =>
    match m s with
    | (Returned a, s') => k a s'
    | (Thrown e, s') => (Thrown e, s')
    end.

Definition tryCatch {S A} (body : Eff S A) (handler : string -> Eff S A)
  : Eff S A :=
  fun s =>
    match body s with
    | (Thrown e, s') => handler e s'
    | done => done
    end.

Definition await {S A} (o : outcome A) : Eff S A := fun s => (o, s).

Definition update {S} (f : S -> S) : Eff S unit :=
  fun s => (Returned tt, f s).

Definition get {S} : Eff S S := fun s => (Returned s, s).

Definition skip {S} : Eff S unit := ret tt.

Declare Scope eff_scope.
Delimit Scope eff_scope with eff.
Notation "'let*' x ':=' m 'in' k" := (bind m (fun x => k))
  (at level 10, x name, m at level 100, k at level 200) : eff_scope.
Notation "m ';;' k" := (bind m (fun _ => k))
  (at level 100, k at level 200, right associativity) : eff_scope.
Local Open Scope eff_scope.

Fixpoint forEach {S A} (l : list A) (body : A -> Eff S unit) : Eff S unit :=
  match l with
  | [] => skip
  | x :: l' => body x;; forEach l' body
  end.

(** The value a function body completes with, from fresh locals. *)
Definition run {S A} (m : Eff S A) (locals : S) : outcome A := fst (m locals).

(** ** Data model *)

Module BedrockModelInfo.
Inductive Status := ACTIVE | PREVIEW | DEPRECATED.
Record t := mk {
  modelId : string;
  modelName : string;
  provider : string;
  regions : list string;
  inputModalities : list string;
  outputModalities : list string;
  streamingSupported : bool;
  requiresAccess : bool;
  status : Status;
  releaseDate : option string
}.
End BedrockModelInfo.

Module ModelAccessStatus.
Inductive State := GRANTED | PENDING | DENIED | NOT_REQUESTED.
Record t := mk {
  modelId : string;
  hasAccess : bool;
  accessStatus : State;
  canRequestAccess : bool
}.
End ModelAccessStatus.

Record DiscoveryResult := {
  availableModels : list string;
  catalogModels : list BedrockModelInfo.t;
  accessStatuses : list ModelAccessStatus.t;
  cliCommands : list string
}.

(** ** The outside world *)

Record Credentials := {
  accessKeyId : string;
  secretAccessKey : string
}.

(** What [signedFetch] resolves to: [ok] and the body [json()] reads. *)
Record Response (B : Type) := {
  ok : bool;
  json : outcome B
}.
Arguments ok {B} r.
Arguments json {B} r.

(** Body of [GET /model-access]. *)
Module ModelAccess.
Record Summary := { modelId : string }.
Record Data := { modelAccessSummaries : option (list Summary) }.
End ModelAccess.

(** Body of [GET /foundation-models]. *)
Module Foundation.
Record Lifecycle := { status : string }.
Record Summary := {
  modelId : string;
  outputModalities : option (list string);
  modelLifecycle : option Lifecycle
}.
Record Data := { modelSummaries : option (list Summary) }.
End Foundation.

(** Body of [GET /inference-profiles]. *)
Module Profile.
Record Summary := {
  inferenceProfileId : string;
  status : string
}.
Record Data := { inferenceProfileSummaries : option (list Summary) }.
End Profile.

(** A [table] element as [parseModelCatalogFromHTML] reads it: [headers] is
    the [textContent] of each element of [table.querySelectorAll('th')], and
    [bodyRows] has, for each row of [table.querySelectorAll('tbody tr')], the
    [textContent] of each cell of [row.querySelectorAll('td')]. *)
Record Table := {
  headers : list string;
  bodyRows : list (list string)
}.

Record Filters := {
  f_provider : option string;
  f_outputModality : option string;
  f_inferenceType : option string;
  f_customizationType : option string
}.

Record Network := {
  (** [fetch(model-ids.html)] followed by [response.text()] *)
  fetchDocumentation : outcome string;
  (** [new DOMParser().parseFromString(html, 'text/html')] followed by
      [doc.querySelectorAll('table')] *)
  parseTables : string -> outcome (list Table);
  (** [signedFetch] of [/model-access] in a region *)
  getModelAccess :
    Credentials -> string -> outcome (Response ModelAccess.Data);
  (** [signedFetch] of [/foundation-models] in a region, with the query
      parameters given *)
  getFoundationModels :
    Credentials -> string -> list (string * string)
    -> outcome (Response Foundation.Data);
  (** [signedFetch] of [/inference-profiles] in a region *)
  getInferenceProfiles :
    Credentials -> string -> outcome (Response Profile.Data);
  (** [chrome.storage.local.set] of the commands and the identifiers *)
  storageSet : list string -> list string -> outcome unit
}.

(** ** aws-model-discovery.ts *)

(** Determine if a model requires special access approval. *)
Definition accessRequiredPatterns : list string :=
  ["claude-4"; "opus-4"; "sonnet-4"; "haiku-4"; "nova-premier"; "nova-pro"].

Definition isModelRequiringAccess (modelId provider : string) : bool :=
  let patternMatch :=
    existsb (fun pattern => Js.includes modelId pattern)
            accessRequiredPatterns in
  if Js.includes (Js.toLowerCase provider) "anthropic" then
    if Js.includes modelId "claude-4"
       || Js.includes modelId "claude-sonnet-4"
       || Js.includes modelId "claude-opus-4"
       || Js.includes modelId "claude-haiku-4"
    then true
    else patternMatch
  else patternMatch.

(** [n] digits at the head of [s]: the pattern [\d{n}] anchored there. *)
Fixpoint takeDigits (n : nat) (s : string) : option string :=
  match n with
  | 0 => Some EmptyString
  | S n' =>
      match s with
      | EmptyString => None
      | String c s' =>
          if Js.isDigit c then String c <$> takeDigits n' s' else None
      end
  end.

(** [modelId.match(/(\d{8})/)]: the group of the leftmost match, the
    pattern being tried at each position in turn. *)
Fixpoint matchEightDigits (s : string) : option string :=
  match takeDigits 8 s with
  | Some dateStr => Some dateStr
  | None =>
      match s with
      | EmptyString => None
      | String _ s' => matchEightDigits s'
      end
  end.

(** Infer release date from model ID. *)
Definition inferReleaseDate (modelId : string) : option string :=
  match matchEightDigits modelId with
  | Some dateStr =>
      let year := Js.substring 0 4 dateStr in
      let month := Js.substring 4 6 dateStr in
      let day := Js.substring 6 8 dateStr in
      Some (year +:+ "-" +:+ month +:+ "-" +:+ day)
  | None => None
  end.

(** Enhance model metadata with additional information. *)
Definition enhanceModelMetadata (models : list BedrockModelInfo.t)
  : outcome (list BedrockModelInfo.t) :=
  Returned
    (map (fun model =>
            BedrockModelInfo.mk
              (BedrockModelInfo.modelId model)
              (BedrockModelInfo.modelName model)
              (BedrockModelInfo.provider model)
              (BedrockModelInfo.regions model)
              (BedrockModelInfo.inputModalities model)
              (BedrockModelInfo.outputModalities model)
              (BedrockModelInfo.streamingSupported model)
              (isModelRequiringAccess (BedrockModelInfo.modelId model)
                                      (BedrockModelInfo.provider model))
              (BedrockModelInfo.status model)
              (inferReleaseDate (BedrockModelInfo.modelId model)))
         models).

(** Fallback model catalog when AWS documentation is unavailable. *)
Definition anthropicEntry (modelId modelName : string)
    (regions : list string) (releaseDate : string) : BedrockModelInfo.t :=
  BedrockModelInfo.mk modelId modelName "Anthropic" regions
    ["Text"; "Image"] ["Text"; "Chat"] true true
    BedrockModelInfo.ACTIVE (Some releaseDate).

Definition getFallbackModelCatalog : list BedrockModelInfo.t :=
  [ anthropicEntry "anthropic.claude-sonnet-4-5-20250929-v1:0"
      "Claude Sonnet 4.5"
      ["us-east-1"; "us-east-2"; "us-west-1"; "us-west-2"; "eu-west-1";
       "eu-central-1"]
      "2025-09-29";
    anthropicEntry "anthropic.claude-haiku-4-5-20251001-v1:0"
      "Claude Haiku 4.5"
      ["us-east-1"; "us-east-2"; "us-west-1"; "us-west-2"; "eu-west-1";
       "eu-central-1"]
      "2025-10-01";
    anthropicEntry "anthropic.claude-sonnet-4-20250514-v1:0"
      "Claude Sonnet 4"
      ["us-east-1"; "us-east-2"; "us-west-1"; "us-west-2"; "eu-west-1"]
      "2025-05-14";
    anthropicEntry "anthropic.claude-opus-4-20250514-v1:0"
      "Claude Opus 4"
      ["us-east-1"; "us-east-2"; "us-west-2"]
      "2025-05-14";
    anthropicEntry "us.anthropic.claude-sonnet-4-5-20250929-v1:0"
      "Claude Sonnet 4.5 (US Cross-Region)"
      ["us-west-2"]
      "2025-09-29";
    anthropicEntry "eu.anthropic.claude-sonnet-4-5-20250929-v1:0"
      "Claude Sonnet 4.5 (EU Cross-Region)"
      ["eu-west-1"]
      "2025-09-29" ].

(** One row of the model table: [None] is [continue] or a row that is not
    pushed. *)
Definition parseRow (cells : list string) : option BedrockModelInfo.t :=
  if length cells <? 6 then None
  else
    let cell i := default EmptyString (cells !! i) in
    let provider := Js.trim (cell 0) in
    let modelName := Js.trim (cell 1) in
    let modelId := Js.trim (cell 2) in
    let regions := Js.splitSpaces (Js.trim (cell 3)) in
    let inputModalities :=
      map Js.trim (Js.splitChar "," (Js.trim (cell 4))) in
    let outputModalities :=
      map Js.trim (Js.splitChar "," (Js.trim (cell 5))) in
    let streamingSupported :=
      match cells !! 6 with
      | Some text => Js.includes (Js.toLowerCase text) "yes"
      | None => false
      end in
    if negb (String.eqb modelId EmptyString)
       && negb (String.eqb provider EmptyString)
    then
      Some (BedrockModelInfo.mk modelId modelName provider
              (List.filter
                 (fun r => negb (String.eqb r EmptyString)
                           && negb (String.eqb r "*"))
                 regions)
              inputModalities outputModalities streamingSupported
              (isModelRequiringAccess modelId provider)
              BedrockModelInfo.ACTIVE None)
    else None.

Definition isModelTable (table : Table) : bool :=
  let headerText := map Js.toLowerCase (headers table) in
  bool_decide ("model id" ∈ headerText)
  && bool_decide ("provider" ∈ headerText).

Section Discovery.

Variable net : Network.

(** Parse model information from AWS documentation HTML.  The locals are
    the array [models]. *)
Definition parseModelCatalogFromHTML (html : string)
  : outcome (list BedrockModelInfo.t) :=
  run
    (tryCatch
       (let* tables := await (parseTables net html) in
        match find isModelTable tables with
        | None => throw "Model table not found in AWS documentation"
        | Some modelTable =>
            forEach (bodyRows modelTable) (fun cells =>
              match parseRow cells with
              | Some model => update (fun models => models ++ [model])
              | None => skip
              end)
        end)
       (fun _ => skip);;
     get)
    [].

(** Fetches the latest model information from AWS Bedrock documentation. *)
Definition fetchLatestModelCatalog : outcome (list BedrockModelInfo.t) :=
  run
    (tryCatch
       (let* html := await (fetchDocumentation net) in
        let* models := await (parseModelCatalogFromHTML html) in
        let* enhancedModels := await (enhanceModelMetadata models) in
        ret enhancedModels)
       (fun _ => ret getFallbackModelCatalog))
    tt.

(** Check model access status for a given AWS account.  The locals are the
    array [accessStatuses]. *)
Definition checkModelAccessStatus (credentials : Credentials)
    (region : string) (modelIds : list string)
  : outcome (list ModelAccessStatus.t) :=
  run
    (tryCatch
       (let* response := await (getModelAccess net credentials region) in
        if ok response then
          let* data := await (json response) in
          let grantedModels :=
            Js.setOf
              (map ModelAccess.modelId
                   (default [] (ModelAccess.modelAccessSummaries data))) in
          forEach modelIds (fun modelId =>
            update (fun accessStatuses =>
              accessStatuses ++
              [ModelAccessStatus.mk modelId
                 (Js.setHas modelId grantedModels)
                 (if Js.setHas modelId grantedModels
                  then ModelAccessStatus.GRANTED
                  else ModelAccessStatus.NOT_REQUESTED)
                 true]))
        else skip)
       (fun _ =>
          forEach modelIds (fun modelId =>
            update (fun accessStatuses =>
              accessStatuses ++
              [ModelAccessStatus.mk modelId
                 (negb (isModelRequiringAccess modelId EmptyString))
                 ModelAccessStatus.NOT_REQUESTED
                 true])));;
     get)
    [].

(** The character that opens and closes a quoted identifier. *)
Definition dquote : string := String (ascii_of_nat 34) EmptyString.

(** Generate AWS CLI commands to request model access. *)
Definition groupModelsByProvider (modelIds : list string)
  : list (string * list string) :=
  fold_left
    (fun modelsByProvider modelId =>
       let provider := default EmptyString (head (Js.splitChar "." modelId)) in
       let withProvider :=
         if negb (Js.mapHas provider modelsByProvider)
         then Js.mapSet provider [] modelsByProvider
         else modelsByProvider in
       Js.mapPush provider modelId withProvider)
    modelIds [].

Definition commandGroup (region : string) (group : string * list string)
  : list string :=
  let (provider, models) := group in
  let modelList :=
    Js.join " " (map (fun m => dquote +:+ m +:+ dquote) models) in
  [ "# Request access for " +:+ provider +:+ " models";
    "aws bedrock put-model-access-request \";
    "  --region " +:+ region +:+ " \";
    "  --model-ids " +:+ modelList +:+ " \";
    "  --access-request-reason " +:+ dquote
      +:+ "Automated access request for Nanobrowser extension" +:+ dquote;
    EmptyString ].

Definition generateAccessRequestCommands (modelIds : list string)
    (region : option string) : list string :=
  let region := default "us-west-2" region in
  fold_left
    (fun commands group => commands ++ commandGroup region group)
    (groupModelsByProvider modelIds) [].

Definition isActiveTextModel (model : Foundation.Summary) : bool :=
  match Foundation.outputModalities model with
  | Some modalities => bool_decide ("TEXT" ∈ modalities)
  | None => false
  end
  && match Foundation.modelLifecycle model with
     | Some lifecycle => String.eqb (Foundation.status lifecycle) "ACTIVE"
     | None => false
     end.

Definition isActiveProfile (profile : Profile.Summary) : bool :=
  String.eqb (Profile.status profile) "ACTIVE".

(** The two blocks both fan-out functions share, over the locals
    [allModels]: read a foundation-models response, read an
    inference-profiles response. *)
Definition addFoundationModels (response : Response Foundation.Data)
  : Eff (list string) unit :=
  if ok response then
    let* data := await (json response) in
    let models := default [] (Foundation.modelSummaries data) in
    forEach (List.filter isActiveTextModel models) (fun model =>
      update (Js.setAdd (Foundation.modelId model)))
  else skip.

Definition addInferenceProfiles (response : Response Profile.Data)
  : Eff (list string) unit :=
  if ok response then
    let* data := await (json response) in
    let profiles := default [] (Profile.inferenceProfileSummaries data) in
    forEach (List.filter isActiveProfile profiles) (fun profile =>
      update (Js.setAdd (Profile.inferenceProfileId profile)))
  else skip.

(** Fetch actually available models via Bedrock API. *)
Definition fetchActuallyAvailableModels (credentials : Credentials)
    (region : string) : outcome (list string) :=
  run
    (tryCatch
       (let* foundationResponse :=
          await (getFoundationModels net credentials region []) in
        addFoundationModels foundationResponse;;
        let* profileResponse :=
          await (getInferenceProfiles net credentials region) in
        addInferenceProfiles profileResponse)
       (fun _ => skip);;
     let* allModels := get in
     ret (Js.sort allModels))
    [].

Definition needsAccess (status : ModelAccessStatus.t) : bool :=
  negb (ModelAccessStatus.hasAccess status)
  && ModelAccessStatus.canRequestAccess status.

(** Smart model discovery that combines API calls with documentation. *)
Definition discoverAvailableModels (credentials : Credentials)
    (region : option string) : outcome DiscoveryResult :=
  let region := default "us-west-2" region in
  run
    (let* catalogModels := await fetchLatestModelCatalog in
     let catalogModelIds := map BedrockModelInfo.modelId catalogModels in
     let* accessStatuses :=
       await (checkModelAccessStatus credentials region catalogModelIds) in
     let* availableModels :=
       await (fetchActuallyAvailableModels credentials region) in
     let modelsNeedingAccess :=
       map ModelAccessStatus.modelId
           (List.filter needsAccess accessStatuses) in
     let cliCommands :=
       generateAccessRequestCommands modelsNeedingAccess (Some region) in
     ret {| availableModels := availableModels;
            catalogModels := catalogModels;
            accessStatuses := accessStatuses;
            cliCommands := cliCommands |})
    tt.

(** ** helper.ts: fetchBedrockModels *)

Definition regionsOf (selectedRegion : string) : list string :=
  if String.eqb selectedRegion "multi-region"
  then ["us-west-2"; "us-east-1"; "eu-west-1"; "ap-northeast-1"]
  else [selectedRegion].

Definition noFilters : Filters :=
  {| f_provider := None; f_outputModality := None;
     f_inferenceType := None; f_customizationType := None |}.

(** The [URLSearchParams] built from the filters, in order of [append]. *)
Definition queryParams (filters : Filters) : list (string * string) :=
  [("byInferenceType",
    default "ON_DEMAND" (Js.truthy (f_inferenceType filters)))]
  ++ match Js.truthy (f_provider filters) with
     | Some v => [("byProvider", v)]
     | None => []
     end
  ++ match Js.truthy (f_outputModality filters) with
     | Some v => [("byOutputModality", v)]
     | None => []
     end
  ++ match Js.truthy (f_customizationType filters) with
     | Some v => [("byCustomizationType", v)]
     | None => []
     end.

(** The body of the loop over the regions; the locals are [allModels]. *)
Definition fetchBedrockRegion (credentials : Credentials)
    (filters : Filters) (region : string) : Eff (list string) unit :=
  tryCatch
    (let* foundationResponse :=
       await (getFoundationModels net credentials region
                (queryParams filters)) in
     addFoundationModels foundationResponse;;
     tryCatch
       (let* profileResponse :=
          await (getInferenceProfiles net credentials region) in
        addInferenceProfiles profileResponse)
       (fun _ => skip))
    (fun _ => skip).

(** The loop over [regions] and the sorted array [modelIds] after it. *)
Definition queryRegions (credentials : Credentials) (filters : Filters)
    (regions : list string) : Eff (list string) (list string) :=
  forEach regions (fetchBedrockRegion credentials filters);;
  let* allModels := get in
  ret (Js.sort allModels).

Definition staticFallbackModels : list string :=
  [ "anthropic.claude-sonnet-4-5-20250929-v1:0";
    "anthropic.claude-haiku-4-5-20251001-v1:0";
    "anthropic.claude-sonnet-4-20250514-v1:0";
    "anthropic.claude-opus-4-20250514-v1:0";
    "anthropic.claude-opus-4-1-20250805-v1:0";
    "anthropic.claude-3-7-sonnet-20250219-v1:0";
    "us.anthropic.claude-sonnet-4-5-20250929-v1:0";
    "us.anthropic.claude-haiku-4-5-20251001-v1:0";
    "eu.anthropic.claude-sonnet-4-5-20250929-v1:0";
    "eu.anthropic.claude-haiku-4-5-20251001-v1:0";
    "global.anthropic.claude-sonnet-4-5-20250929-v1:0";
    "anthropic.claude-3-5-sonnet-20241022-v2:0";
    "anthropic.claude-3-5-haiku-20241022-v1:0";
    "anthropic.claude-3-opus-20240229-v1:0";
    "anthropic.claude-3-sonnet-20240229-v1:0";
    "anthropic.claude-3-haiku-20240307-v1:0" ].

(** Enhanced function to fetch available Bedrock models with smart
    discovery. *)
Definition fetchBedrockModels (credentials : Credentials)
    (selectedRegion : option string) (filters : option Filters)
  : outcome (list string) :=
  let selectedRegion := default "multi-region" selectedRegion in
  let filters := default noFilters filters in
  run
    (let* modelIds :=
       queryRegions credentials filters (regionsOf selectedRegion) in
     if 0 <? length modelIds then ret modelIds
     else
       tryCatch
         (let primaryRegion :=
            if String.eqb selectedRegion "multi-region"
            then "us-west-2" else selectedRegion in
          let* discovery :=
            await (discoverAvailableModels credentials
                     (Some primaryRegion)) in
          (if 0 <? length (cliCommands discovery) then
             await (storageSet net (cliCommands discovery)
                      (map ModelAccessStatus.modelId
                           (List.filter
                              (fun s => negb (ModelAccessStatus.hasAccess s))
                              (accessStatuses discovery))))
           else skip);;
          ret (if 0 <? length (availableModels discovery)
               then availableModels discovery
               else map BedrockModelInfo.modelId (catalogModels discovery)))
         (fun _ => ret staticFallbackModels))
    [].

End Discovery.

(** ** helper.ts: generateBedrockProvisioningFiles *)

(** The options [createProvisioningFiles] is called with. *)
Record ProvisioningOptions := {
  po_region : string;
  po_reason : string
}.

Section Provisioning.

Variable net : Network.

(** [createProvisioningFiles] of [services/aws-cli-provisioning]: from the
    identifiers and the options to the files, by name; it may throw. *)
Variable createProvisioningFiles :
  list string -> ProvisioningOptions -> outcome (list (string * string)).

(** Function to generate provisioning files for missing model access. *)
Definition generateBedrockProvisioningFiles (credentials : Credentials)
    (region : option string) : outcome (list (string * string)) :=
  let region := default "us-west-2" region in
  run
    (tryCatch
       (let* discovery :=
          await (discoverAvailableModels net credentials (Some region)) in
        let modelsNeedingAccess :=
          map ModelAccessStatus.modelId
              (List.filter needsAccess (accessStatuses discovery)) in
        if length modelsNeedingAccess =? 0 then ret []
        else
          let options :=
            {| po_region := region;
               po_reason :=
                 "Automated access request for Nanobrowser AI extension" |} in
          let* files :=
            await (createProvisioningFiles modelsNeedingAccess options) in
          ret files)
       (fun _ => ret []))
    tt.

End Provisioning.

(** ** helper.ts: the chat models *)

(** [s.startsWith(p)] and [s.substring(n)]. *)
Definition startsWith (s p : string) : bool := String.prefix p s.

Fixpoint substringFrom (n : nat) (s : string) : string :=
  match n, s with
  | S n', String _ s' => substringFrom n' s'
  | _, _ => s
  end.

(** A number in a template string. *)
Definition showNat (n : nat) : string :=
  DecimalString.NilZero.string_of_uint (Nat.to_uint n).

Definition maxTokens : nat := 1024 * 4.

(** O series models or GPT-5 models that support reasoning. *)
Definition isOpenAIReasoningModel (modelName : string) : bool :=
  let modelNameWithoutProvider :=
    if startsWith modelName "openai/" then substringFrom 7 modelName
    else modelName in
  startsWith modelNameWithoutProvider "o"
  || (startsWith modelNameWithoutProvider "gpt-5"
      && negb (startsWith modelNameWithoutProvider "gpt-5-chat")).

(** Function to check if a model is an Anthropic Opus model. *)
Definition isAnthropicOpusModel (modelName : string) : bool :=
  let modelNameWithoutProvider :=
    if startsWith modelName "anthropic/" then substringFrom 10 modelName
    else modelName in
  startsWith modelNameWithoutProvider "claude-opus".

(** [ProviderTypeEnum] of the storage package: the provider identifiers. *)
Record ProviderTypeEnum := {
  OpenAI : string;
  Anthropic : string;
  DeepSeek : string;
  Gemini : string;
  Grok : string;
  Groq : string;
  Cerebras : string;
  Ollama : string;
  OpenRouter : string;
  Llama : string;
  Bedrock : string;
  AzureOpenAI : string
}.

(** The fields of [ProviderConfig] the functions read. *)
Record ProviderConfig := {
  pc_apiKey : option string;
  pc_baseUrl : option string;
  pc_azureDeploymentNames : option (list string);
  pc_azureApiVersion : option string
}.

Record Configuration := {
  baseURL : option string;
  defaultHeaders : option (list (string * string))
}.

Record ModelKwargs := {
  max_completion_tokens : nat;
  reasoning_effort : option string
}.

(** A message handed to [_generate]: what [_getType()] returns, and the
    content. *)
Record BaseMessage := {
  msg_type : string;
  msg_content : string
}.

Record ContentBlock := {
  cb_type : string;
  cb_text : string
}.

Record BedrockMessage := {
  bm_role : string;
  bm_content : list ContentBlock
}.

(** The body [response.json()] reads from an [invoke] answer. *)
Record ResultBlock := { rb_text : option string }.
Record InvokeResult := { ir_content : option (list ResultBlock) }.

Record InvokeResponse := {
  iv_ok : bool;
  iv_status : nat;
  iv_statusText : string;
  iv_json : outcome InvokeResult
}.

Record Generation := {
  g_text : string;
  g_message : string
}.

Section ChatModels.

(** JavaScript numbers are only handed on by this code, never computed
    with: [number] is any carrier for them and [tenth] the literal [0.1]. *)
Variable number : Type.
Variable tenth : number.

Variable providerType : ProviderTypeEnum.

(** [new URL(url).hostname], which throws on what is not a URL. *)
Variable urlHostname : string -> outcome string.

Record ModelParameters := {
  p_topP : option number;
  p_temperature : option number
}.

Record ModelConfig := {
  mc_provider : string;
  mc_modelName : string;
  mc_parameters : option ModelParameters;
  mc_reasoningEffort : option string
}.

(** The argument object of a constructor: a key that the code does not set
    is [None] ([false] for the empty [clientOptions]). *)
Record ChatArgs := {
  a_model : string;
  a_apiKey : option string;
  a_configuration : option Configuration;
  a_modelKwargs : option ModelKwargs;
  a_topP : option number;
  a_temperature : option number;
  a_maxTokens : option nat;
  a_clientOptions : bool;
  a_baseUrl : option string;
  a_numCtx : option N
}.

Record AzureArgs := {
  azureOpenAIApiInstanceName : string;
  azureOpenAIApiDeploymentName : string;
  azureOpenAIApiKey : string;
  azureOpenAIApiVersion : string;
  az_model : string;
  az_modelKwargs : option ModelKwargs;
  az_temperature : option number;
  az_topP : option number;
  az_maxTokens : option nat
}.

Record BedrockArgs := {
  b_model : string;
  b_region : string;
  b_credentials : Credentials;
  b_temperature : number;
  b_topP : number;
  b_maxTokens : nat
}.

(** The request body of [_generate]. *)
Record RequestBody := {
  anthropic_version : string;
  max_tokens : nat;
  temperature : number;
  top_p : number;
  messages : list BedrockMessage
}.

(** The signed [POST] of [_generate]: credentials and region of the
    fetcher, URL and body of the request. *)
Variable invokeModel :
  Credentials -> string -> string -> RequestBody -> outcome InvokeResponse.

(** The constructor call a factory function ends with: the class and the
    argument object.  What the constructor then does is the library's. *)
Inductive ChatModel :=
  | ChatOpenAI (args : ChatArgs)
  | AzureChatOpenAI (args : AzureArgs)
  | ChatAnthropic (args : ChatArgs)
  | ChatDeepSeek (args : ChatArgs)
  | ChatGoogleGenerativeAI (args : ChatArgs)
  | ChatXAI (args : ChatArgs)
  | ChatGroq (args : ChatArgs)
  | ChatCerebras (args : ChatArgs)
  | ChatOllama (args : ChatArgs)
  | ChatLlama (args : ChatArgs)
  | ChatBedrock (args : BedrockArgs).

(** [modelConfig.parameters?.temperature ?? 0.1], and the same for [topP]. *)
Definition temperatureOf (modelConfig : ModelConfig) : number :=
  match mc_parameters modelConfig with
  | Some parameters => default tenth (p_temperature parameters)
  | None => tenth
  end.

Definition topPOf (modelConfig : ModelConfig) : number :=
  match mc_parameters modelConfig with
  | Some parameters => default tenth (p_topP parameters)
  | None => tenth
  end.

Definition createOpenAIChatModel (providerConfig : ProviderConfig)
    (modelConfig : ModelConfig)
    (extraFetchOptions : option (option (list (string * string))))
  : ChatModel :=
  let configuration :=
    {| baseURL := Js.truthy (pc_baseUrl providerConfig);
       defaultHeaders :=
         match extraFetchOptions with
         | Some (Some headers) => Some headers
         | _ => None
         end |} in
  if isOpenAIReasoningModel (mc_modelName modelConfig) then
    ChatOpenAI
      {| a_model := mc_modelName modelConfig;
         a_apiKey := pc_apiKey providerConfig;
         a_configuration := Some configuration;
         a_modelKwargs :=
           Some {| max_completion_tokens := maxTokens;
                   reasoning_effort :=
                     Js.truthy (mc_reasoningEffort modelConfig) |};
         a_topP := None;
         a_temperature := None;
         a_maxTokens := None;
         a_clientOptions := false;
         a_baseUrl := None;
         a_numCtx := None |}
  else
    ChatOpenAI
      {| a_model := mc_modelName modelConfig;
         a_apiKey := pc_apiKey providerConfig;
         a_configuration := Some configuration;
         a_modelKwargs := None;
         a_topP := Some (topPOf modelConfig);
         a_temperature := Some (temperatureOf modelConfig);
         a_maxTokens := Some maxTokens;
         a_clientOptions := false;
         a_baseUrl := None;
         a_numCtx := None |}.

(** Function to extract instance name from Azure endpoint URL. *)
Definition extractInstanceNameFromUrl (url : string) : option string :=
  match
    run
      (tryCatch
         (let* hostname := await (urlHostname url) in
          let hostnameParts := Js.splitChar "." hostname in
          if (4 <=? length hostnameParts)
             && bool_decide (hostnameParts !! 1 = Some "openai")
             && bool_decide (hostnameParts !! 2 = Some "azure")
          then ret (hostnameParts !! 0)
          else ret None)
         (fun _ => ret None))
      tt
  with
  | Returned name => name
  | Thrown _ => None
  end.

(** Function to check if a provider ID is an Azure provider. *)
Definition isAzureProvider (providerId : string) : bool :=
  String.eqb providerId (AzureOpenAI providerType)
  || startsWith providerId (AzureOpenAI providerType +:+ "_").

(** Function to create an Azure OpenAI chat model. *)
Definition createAzureChatModel (providerConfig : ProviderConfig)
    (modelConfig : ModelConfig) : outcome ChatModel :=
  let temperature := temperatureOf modelConfig in
  let topP := topPOf modelConfig in
  match Js.truthy (pc_baseUrl providerConfig),
        pc_azureDeploymentNames providerConfig,
        Js.truthy (pc_azureApiVersion providerConfig),
        Js.truthy (pc_apiKey providerConfig) with
  | Some baseUrl, Some (name :: names), Some apiVersion, Some apiKey =>
      let deploymentName := mc_modelName modelConfig in
      match Js.truthy (extractInstanceNameFromUrl baseUrl) with
      | None =>
          Thrown
            ("Could not extract Instance Name from Azure Endpoint URL: "
             +:+ baseUrl
             +:+ ". Expected format like https://<your-instance-name>.openai.azure.com/")
      | Some instanceName =>
          let isOSeriesModel := isOpenAIReasoningModel deploymentName in
          Returned
            (AzureChatOpenAI
               {| azureOpenAIApiInstanceName := instanceName;
                  azureOpenAIApiDeploymentName := deploymentName;
                  azureOpenAIApiKey := apiKey;
                  azureOpenAIApiVersion := apiVersion;
                  az_model := deploymentName;
                  az_modelKwargs :=
                    if isOSeriesModel then
                      Some {| max_completion_tokens := maxTokens;
                              reasoning_effort :=
                                Js.truthy (mc_reasoningEffort modelConfig) |}
                    else None;
                  az_temperature :=
                    if isOSeriesModel then None else Some temperature;
                  az_topP := if isOSeriesModel then None else Some topP;
                  az_maxTokens :=
                    if isOSeriesModel then None else Some maxTokens |})
      end
  | _, _, _, _ =>
      Thrown
        "Azure configuration is incomplete. Endpoint, Deployment Name, API Version, and API Key are required. Please check settings."
  end.

(** The argument object with [model], [apiKey], [temperature] and [topP],
    and [maxTokens] where the case sets it. *)
Definition plainArgs (providerConfig : ProviderConfig)
    (modelConfig : ModelConfig) (withMaxTokens : bool) : ChatArgs :=
  {| a_model := mc_modelName modelConfig;
     a_apiKey := pc_apiKey providerConfig;
     a_configuration := None;
     a_modelKwargs := None;
     a_topP := Some (topPOf modelConfig);
     a_temperature := Some (temperatureOf modelConfig);
     a_maxTokens := if withMaxTokens then Some maxTokens else None;
     a_clientOptions := false;
     a_baseUrl := None;
     a_numCtx := None |}.

(** The region of the [Bedrock] case, from the prefix of the model name. *)
Definition bedrockRegionOf (modelName : string) : string :=
  if startsWith modelName "us." then "us-west-2"
  else if startsWith modelName "eu." then "eu-west-1"
  else if startsWith modelName "global." then "us-east-1"
  else "us-west-2".

(** Create a chat model based on the agent name, the model name and
    provider. *)
Definition createChatModel (providerConfig : ProviderConfig)
    (modelConfig : ModelConfig) : outcome ChatModel :=
  let temperature := temperatureOf modelConfig in
  let topP := topPOf modelConfig in
  let provider := mc_provider modelConfig in
  if isAzureProvider provider then
    createAzureChatModel providerConfig modelConfig
  else if String.eqb provider (OpenAI providerType) then
    Returned (createOpenAIChatModel providerConfig modelConfig None)
  else if String.eqb provider (Anthropic providerType) then
    Returned
      (ChatAnthropic
         {| a_model := mc_modelName modelConfig;
            a_apiKey := pc_apiKey providerConfig;
            a_configuration := None;
            a_modelKwargs := None;
            a_topP :=
              if isAnthropicOpusModel (mc_modelName modelConfig)
              then None else Some topP;
            a_temperature := Some temperature;
            a_maxTokens := Some maxTokens;
            a_clientOptions := true;
            a_baseUrl := None;
            a_numCtx := None |})
  else if String.eqb provider (DeepSeek providerType) then
    Returned (ChatDeepSeek (plainArgs providerConfig modelConfig false))
  else if String.eqb provider (Gemini providerType) then
    Returned
      (ChatGoogleGenerativeAI (plainArgs providerConfig modelConfig false))
  else if String.eqb provider (Grok providerType) then
    Returned
      (ChatXAI
         {| a_model := mc_modelName modelConfig;
            a_apiKey := pc_apiKey providerConfig;
            a_configuration :=
              Some {| baseURL := None; defaultHeaders := None |};
            a_modelKwargs := None;
            a_topP := Some topP;
            a_temperature := Some temperature;
            a_maxTokens := Some maxTokens;
            a_clientOptions := false;
            a_baseUrl := None;
            a_numCtx := None |})
  else if String.eqb provider (Groq providerType) then
    Returned (ChatGroq (plainArgs providerConfig modelConfig true))
  else if String.eqb provider (Cerebras providerType) then
    Returned (ChatCerebras (plainArgs providerConfig modelConfig true))
  else if String.eqb provider (Ollama providerType) then
    Returned
      (ChatOllama
         {| a_model := mc_modelName modelConfig;
            a_apiKey :=
              if bool_decide (pc_apiKey providerConfig = Some EmptyString)
              then Some "ollama" else pc_apiKey providerConfig;
            a_configuration := None;
            a_modelKwargs := None;
            a_topP := Some topP;
            a_temperature := Some temperature;
            a_maxTokens := Some maxTokens;
            a_clientOptions := false;
            a_baseUrl :=
              Some (default "http://localhost:11434"
                            (pc_baseUrl providerConfig));
            a_numCtx := Some 64000%N |})
  else if String.eqb provider (OpenRouter providerType) then
    Returned
      (createOpenAIChatModel providerConfig modelConfig
         (Some (Some [("HTTP-Referer", "https://nanobrowser.ai");
                      ("X-Title", "Nanobrowser")])))
  else if String.eqb provider (Llama providerType) then
    Returned
      (ChatLlama
         {| a_model := mc_modelName modelConfig;
            a_apiKey := pc_apiKey providerConfig;
            a_configuration :=
              Some {| baseURL := Js.truthy (pc_baseUrl providerConfig);
                      defaultHeaders := None |};
            a_modelKwargs := None;
            a_topP := Some (topPOf modelConfig);
            a_temperature := Some (temperatureOf modelConfig);
            a_maxTokens := Some maxTokens;
            a_clientOptions := false;
            a_baseUrl := None;
            a_numCtx := None |})
  else if String.eqb provider (Bedrock providerType) then
    match Js.truthy (pc_apiKey providerConfig) with
    | None => Thrown "AWS Access Key ID is required for Bedrock"
    | Some apiKey =>
        match Js.truthy (pc_baseUrl providerConfig) with
        | None =>
            Thrown
              "AWS Secret Access Key is required for Bedrock (stored in baseUrl field)"
        | Some baseUrl =>
            Returned
              (ChatBedrock
                 {| b_model := mc_modelName modelConfig;
                    b_region := bedrockRegionOf (mc_modelName modelConfig);
                    b_credentials :=
                      {| accessKeyId := apiKey;
                         secretAccessKey := baseUrl |};
                    b_temperature := temperature;
                    b_topP := topP;
                    b_maxTokens := maxTokens |})
        end
    end
  else
    Returned (createOpenAIChatModel providerConfig modelConfig None).

(** [_generate] of the class [ChatBedrock], whose fields are the arguments
    it was constructed with. *)
Definition generate (this : BedrockArgs) (msgs : list BaseMessage)
  : outcome (list Generation) :=
  run
    (tryCatch
       (let bedrockMessages :=
          map (fun msg =>
                 {| bm_role :=
                      if String.eqb (msg_type msg) "human"
                      then "user" else "assistant";
                    bm_content :=
                      [{| cb_type := "text"; cb_text := msg_content msg |}]
                 |})
              msgs in
        let requestBody :=
          {| anthropic_version := "bedrock-2023-05-31";
             max_tokens := b_maxTokens this;
             temperature := b_temperature this;
             top_p := b_topP this;
             messages := bedrockMessages |} in
        let* response :=
          await (invokeModel (b_credentials this) (b_region this)
                   ("https://bedrock-runtime." +:+ b_region this
                    +:+ ".amazonaws.com/model/" +:+ b_model this
                    +:+ "/invoke")
                   requestBody) in
        (if negb (iv_ok response) then
           throw ("Bedrock API error: " +:+ showNat (iv_status response)
                  +:+ " " +:+ iv_statusText response)
         else skip);;
        let* result := await (iv_json response) in
        let content :=
          default EmptyString
            (Js.truthy
               (match ir_content result with
                | Some (block :: _) => rb_text block
                | _ => None
                end)) in
        ret [{| g_text := content; g_message := content |}])
       (fun e =>
          throw ("Failed to call Bedrock API: "
                 +:+ (if String.eqb e EmptyString
                      then "Unknown error" else e))))
    tt.

End ChatModels.

(** ** helper.ts: ChatLlama *)

Section Llama.

(** The messages and options, which the class only hands to its parent. *)
Variables Message Options : Type.

(** [_generate] of the parent class [ChatOpenAI]. *)
Variable superGenerate :
  list Message -> option Options -> outcome (list Generation).

(** [JSON.parse(text)] followed by the read of
    [completion_message.content.text]: [Thrown] on what is not JSON,
    [None] on a value without that text. *)
Variable parseCompletionText : string -> outcome (option string).

(** Override of [_generate] that intercepts the response; the locals are
    the generations of [response], which the method changes in place. *)
Definition llamaGenerate (msgs : list Message) (options : option Options)
  : outcome (list Generation) :=
  run
    (tryCatch
       (let* response := await (superGenerate msgs options) in
        update (fun _ => response);;
        match response with
        | first :: rest =>
            if negb (String.eqb (g_text first) EmptyString) then
              let originalText := g_text first in
              tryCatch
                (let* parsed := await (parseCompletionText originalText) in
                 match Js.truthy parsed with
                 | Some text =>
                     update (fun generations =>
                       match generations with
                       | _ :: others =>
                           {| g_text := text; g_message := text |} :: others
                       | [] => []
                       end)
                 | None => skip
                 end)
                (fun _ => skip)
            else skip
        | [] => skip
        end;;
        get)
       (fun error => throw error))
    [].

End Llama.

(** ** The specification's wording, for comparison with the code *)

(** The maximal runs of consecutive digits of a string, left to right. *)
Definition startsWithDigit (s : string) : bool :=
  match s with
  | EmptyString => false
  | String c _ => Js.isDigit c
  end.

Fixpoint digitRuns (s : string) : list string :=
  match s with
  | EmptyString => []
  | String c s' =>
      if Js.isDigit c then
        if startsWithDigit s' then
          match digitRuns s' with
          | r :: rs => String c r :: rs
          | [] => [String c EmptyString]
          end
        else String c EmptyString :: digitRuns s'
      else digitRuns s'
  end.

(** Eight digits [YYYYMMDD] rendered as [YYYY-MM-DD]. *)
Definition asDate (digits : string) : string :=
  Js.substring 0 4 digits +:+ "-" +:+ Js.substring 4 6 digits
  +:+ "-" +:+ Js.substring 6 8 digits.

(** The release date as the specification words it: the first maximal run
    of exactly 8 consecutive digits. *)
Definition releaseDateBySpec (modelId : string) : option string :=
  asDate <$> find (fun r => String.length r =? 8) (digitRuns modelId).

(** The distinct elements of a list, each at the place of its first
    occurrence. *)
Fixpoint distinctInOrder (l : list string) : list string :=
  match l with
  | [] => []
  | x :: l' =>
      x :: List.filter (fun y => negb (String.eqb y x)) (distinctInOrder l')
  end.

(** The provider namespace as the specification words it: the substring of
    the identifier that precedes its first dot. *)
Fixpoint beforeFirstDot (s : string) : string :=
  match s with
  | EmptyString => EmptyString
  | String c s' =>
      if Ascii.eqb c "." then EmptyString else String c (beforeFirstDot s')
  end.

(** Some pattern of the gated-family list occurs in the identifier. *)
Definition matchesGatedPattern (modelId : string) : bool :=
  existsb (fun pattern => Js.includes modelId pattern) accessRequiredPatterns.

(** The command groups as the specification words them: one group per
    distinct provider namespace, in order of first encounter, each with the
    identifiers of that namespace in their original order. *)
Definition groupsBySpec (modelIds : list string)
  : list (string * list string) :=
  map (fun provider =>
         (provider,
          List.filter (fun m => String.eqb (beforeFirstDot m) provider)
                      modelIds))
      (distinctInOrder (map beforeFirstDot modelIds)).

(** ** Derived forms used in the statements *)

(** The status the live tier pushes for an identifier. *)
Definition liveStatus (grantedModels : list string) (modelId : string)
  : ModelAccessStatus.t :=
  ModelAccessStatus.mk modelId
    (Js.setHas modelId grantedModels)
    (if Js.setHas modelId grantedModels
     then ModelAccessStatus.GRANTED
     else ModelAccessStatus.NOT_REQUESTED)
    true.

(** The status the [catch] block pushes for an identifier. *)
Definition heuristicStatus (modelId : string) : ModelAccessStatus.t :=
  ModelAccessStatus.mk modelId
    (negb (isModelRequiringAccess modelId EmptyString))
    ModelAccessStatus.NOT_REQUESTED
    true.

(** The identifiers a [/model-access] body grants. *)
Definition grantedOf (data : ModelAccess.Data) : list string :=
  Js.setOf
    (map ModelAccess.modelId
         (default [] (ModelAccess.modelAccessSummaries data))).

(** The invariant of an access status: access held means access granted. *)
Definition accessInvariant (status : ModelAccessStatus.t) : Prop :=
  ModelAccessStatus.hasAccess status = true ->
  ModelAccessStatus.accessStatus status = ModelAccessStatus.GRANTED.

(** A result whose four fields are all empty. *)
Definition allEmpty (r : DiscoveryResult) : Prop :=
  availableModels r = [] /\ catalogModels r = []
  /\ accessStatuses r = [] /\ cliCommands r = [].

(** The identifiers a foundation-models answer adds to [allModels], in
    order; [Thrown] when the request, or reading its body, throws. *)
Definition foundationIds (answer : outcome (Response Foundation.Data))
  : outcome (list string) :=
  match answer with
  | Returned response =>
      if ok response then
        match json response with
        | Returned data =>
            Returned
              (map Foundation.modelId
                   (List.filter isActiveTextModel
                      (default [] (Foundation.modelSummaries data))))
        | Thrown e => Thrown e
        end
      else Returned []
  | Thrown e => Thrown e
  end.

(** The same for an inference-profiles answer. *)
Definition profileIds (answer : outcome (Response Profile.Data))
  : outcome (list string) :=
  match answer with
  | Returned response =>
      if ok response then
        match json response with
        | Returned data =>
            Returned
              (map Profile.inferenceProfileId
                   (List.filter isActiveProfile
                      (default [] (Profile.inferenceProfileSummaries data))))
        | Thrown e => Thrown e
        end
      else Returned []
  | Thrown e => Thrown e
  end.

(** What one region adds, in order of insertion: nothing when its
    foundation-models query throws; otherwise the foundation models, then
    the inference profiles unless that query throws. *)
Definition regionIds (net : Network) (credentials : Credentials)
    (query : list (string * string)) (region : string) : list string :=
  match foundationIds (getFoundationModels net credentials region query) with
  | Returned models =>
      models ++
      match profileIds (getInferenceProfiles net credentials region) with
      | Returned profiles => profiles
      | Thrown _ => []
      end
  | Thrown _ => []
  end.

(** The request [_generate] sends, and where it sends it. *)
Definition requestOf {number : Type} (this : BedrockArgs number)
    (msgs : list BaseMessage) : RequestBody number :=
  {| anthropic_version := "bedrock-2023-05-31";
     max_tokens := b_maxTokens number this;
     temperature := b_temperature number this;
     top_p := b_topP number this;
     messages :=
       map (fun msg =>
              {| bm_role :=
                   if String.eqb (msg_type msg) "human"
                   then "user" else "assistant";
                 bm_content :=
                   [{| cb_type := "text"; cb_text := msg_content msg |}] |})
           msgs |}.

Definition invokeUrlOf {number : Type} (this : BedrockArgs number) : string :=
  "https://bedrock-runtime." +:+ b_region number this
  +:+ ".amazonaws.com/model/" +:+ b_model number this +:+ "/invoke".

(** The message of the error [_generate] throws for an error caught. *)
Definition wrapBedrockError (e : string) : string :=
  "Failed to call Bedrock API: "
  +:+ (if String.eqb e EmptyString then "Unknown error" else e).

(** The text [_generate] takes from the body of an answer. *)
Definition contentOf (result : InvokeResult) : string :=
  default EmptyString
    (Js.truthy
       (match ir_content result with
        | Some (block :: _) => rb_text block
        | _ => None
        end)).

(** ** Concrete runs *)

Definition someCredentials : Credentials :=
  {| accessKeyId := "AKIAEXAMPLE"; secretAccessKey := "secret" |}.

(** No request gets through: every call throws. *)
Definition offline : Network :=
  {| fetchDocumentation := Thrown "Failed to fetch";
     parseTables := fun _ => Thrown "DOMParser is not defined";
     getModelAccess := fun _ _ => Thrown "Failed to fetch";
     getFoundationModels := fun _ _ _ => Thrown "Failed to fetch";
     getInferenceProfiles := fun _ _ => Thrown "Failed to fetch";
     storageSet := fun _ _ => Returned tt |}.

(** The documentation page answers, with a page that holds no table. *)
Definition pageWithoutTable : string :=
  "<html><body><h1>Supported foundation models</h1></body></html>".

Definition docsWithoutTable : Network :=
  {| fetchDocumentation := Returned pageWithoutTable;
     parseTables := fun _ => Returned [];
     getModelAccess := fun _ _ => Thrown "Failed to fetch";
     getFoundationModels := fun _ _ _ => Thrown "Failed to fetch";
     getInferenceProfiles := fun _ _ => Thrown "Failed to fetch";
     storageSet := fun _ _ => Returned tt |}.

(** The entitlement endpoint answers 403; nothing else gets through. *)
Definition forbidden : Network :=
  {| fetchDocumentation := Thrown "Failed to fetch";
     parseTables := fun _ => Thrown "DOMParser is not defined";
     getModelAccess := fun _ _ =>
       Returned {| ok := false;
                   json := Returned
                     {| ModelAccess.modelAccessSummaries := None |} |};
     getFoundationModels := fun _ _ _ => Thrown "Failed to fetch";
     getInferenceProfiles := fun _ _ => Thrown "Failed to fetch";
     storageSet := fun _ _ => Returned tt |}.

(** The foundation-models request throws in every region; the
    inference-profiles request answers with one active profile. *)
Definition foundationDown : Network :=
  {| fetchDocumentation := Thrown "Failed to fetch";
     parseTables := fun _ => Thrown "DOMParser is not defined";
     getModelAccess := fun _ _ => Thrown "Failed to fetch";
     getFoundationModels := fun _ _ _ => Thrown "Failed to fetch";
     getInferenceProfiles := fun _ _ =>
       Returned
         {| ok := true;
            json := Returned
              {| Profile.inferenceProfileSummaries :=
                   Some [ {| Profile.inferenceProfileId :=
                               "us.anthropic.claude-sonnet-4-5-20250929-v1:0";
                             Profile.status := "ACTIVE" |} ] |} |};
     storageSet := fun _ _ => Returned tt |}.

(** Every request is answered, and every answer is empty: the
    documentation has the model table with no row in its body, and the
    account has neither grants nor models nor profiles. *)
Definition emptyModelTable : Table :=
  {| headers := ["Provider"; "Model name"; "Model ID"; "Regions supported";
                 "Input modalities"; "Output modalities";
                 "Streaming supported"];
     bodyRows := [] |}.

Definition emptyAccount : Network :=
  {| fetchDocumentation := Returned "<html><body><table></table></body></html>";
     parseTables := fun _ => Returned [emptyModelTable];
     getModelAccess := fun _ _ =>
       Returned {| ok := true;
                   json := Returned
                     {| ModelAccess.modelAccessSummaries := Some [] |} |};
     getFoundationModels := fun _ _ _ =>
       Returned {| ok := true;
                   json := Returned
                     {| Foundation.modelSummaries := Some [] |} |};
     getInferenceProfiles := fun _ _ =>
       Returned {| ok := true;
                   json := Returned
                     {| Profile.inferenceProfileSummaries := Some [] |} |};
     storageSet := fun _ _ => Returned tt |}.

(** Two regions with overlapping inventories: the first has an inactive
    model and a profile, the second shares a model with the first. *)
Definition textModel (modelId status : string) : Foundation.Summary :=
  {| Foundation.modelId := modelId;
     Foundation.outputModalities := Some ["TEXT"];
     Foundation.modelLifecycle := Some {| Foundation.status := status |} |}.

Definition twoRegions : Network :=
  {| fetchDocumentation := Thrown "Failed to fetch";
     parseTables := fun _ => Thrown "DOMParser is not defined";
     getModelAccess := fun _ _ => Thrown "Failed to fetch";
     getFoundationModels := fun _ region _ =>
       if String.eqb region "us-west-2" then
         Returned
           {| ok := true;
              json := Returned
                {| Foundation.modelSummaries :=
                     Some [ textModel "meta.llama3-70b-instruct-v1:0" "ACTIVE";
                            textModel "amazon.titan-text-express-v1" "ACTIVE";
                            textModel "amazon.titan-text-lite-v1" "LEGACY" ]
                |} |}
       else if String.eqb region "us-east-1" then
         Returned
           {| ok := true;
              json := Returned
                {| Foundation.modelSummaries :=
                     Some [ textModel "amazon.titan-text-express-v1" "ACTIVE";
                            textModel "cohere.command-r-v1:0" "ACTIVE" ] |} |}
       else Thrown "Failed to fetch";
     getInferenceProfiles := fun _ region =>
       if String.eqb region "us-west-2" then
         Returned
           {| ok := true;
              json := Returned
                {| Profile.inferenceProfileSummaries :=
                     Some [ {| Profile.inferenceProfileId :=
                                 "us.meta.llama3-70b-instruct-v1:0";
                               Profile.status := "ACTIVE" |} ] |} |}
       else
         Returned
           {| ok := false;
              json := Thrown "Unexpected end of JSON input" |};
     storageSet := fun _ _ => Returned tt |}.

(** The entitlement query grants one of two catalog identifiers. *)
Definition oneGrant : Network :=
  {| fetchDocumentation := Thrown "Failed to fetch";
     parseTables := fun _ => Thrown "DOMParser is not defined";
     getModelAccess := fun _ _ =>
       Returned
         {| ok := true;
            json := Returned
              {| ModelAccess.modelAccessSummaries :=
                   Some [ {| ModelAccess.modelId :=
                               "anthropic.claude-3-5-sonnet-20241022-v2:0" |} ]
              |} |};
     getFoundationModels := fun _ _ _ => Thrown "Failed to fetch";
     getInferenceProfiles := fun _ _ => Thrown "Failed to fetch";
     storageSet := fun _ _ => Returned tt |}.

(** Every character of the string is a digit. *)
Fixpoint allDigits (s : string) : bool :=
  match s with
  | EmptyString => true
  | String c s' => Js.isDigit c && allDigits s'
  end.

(** The two derived fields of a catalog entry are what enrichment computes
    from its identifier and provider. *)
Definition derivedFieldsAgree (model : BedrockModelInfo.t) : Prop :=
  BedrockModelInfo.requiresAccess model
  = isModelRequiringAccess (BedrockModelInfo.modelId model)
                           (BedrockModelInfo.provider model)
  /\ BedrockModelInfo.releaseDate model
     = inferReleaseDate (BedrockModelInfo.modelId model).

(** A documentation page with three tables: one that is not the model
    table, the model table, with a short row and a row without identifier
    among its rows, and a second model table after it. *)
Definition regionTable : Table :=
  {| headers := ["Region"; "Endpoint"];
     bodyRows := [["us-west-2"; "bedrock.us-west-2.amazonaws.com"]] |}.

Definition modelTable : Table :=
  {| headers := ["Provider"; "Model name"; "Model ID"; "Regions supported";
                 "Input modalities"; "Output modalities";
                 "Streaming supported"];
     bodyRows :=
       [ ["Anthropic"; "Claude Opus 4";
          " anthropic.claude-opus-4-20250514-v1:0 ";
          "us-east-1 us-west-2 *"; "Text, Image"; "Text"; "Yes"];
         ["Amazon"; "Titan"];
         ["Amazon"; "Titan Text"; "  "; "us-east-1"; "Text"; "Text"; "No"];
         ["Amazon"; "Nova Lite"; "amazon.nova-lite-v1:0"; "us-east-1";
          "Text"; "Text"] ] |}.

Definition laterModelTable : Table :=
  {| headers := ["Model ID"; "Provider"];
     bodyRows :=
       [ ["Meta"; "Llama 3"; "meta.llama3-70b-instruct-v1:0"; "us-west-2";
          "Text"; "Text"; "Yes"] ] |}.

Definition docsThreeTables : Network :=
  {| fetchDocumentation := Returned "<html>...</html>";
     parseTables := fun _ =>
       Returned [regionTable; modelTable; laterModelTable];
     getModelAccess := fun _ _ => Thrown "Failed to fetch";
     getFoundationModels := fun _ _ _ => Thrown "Failed to fetch";
     getInferenceProfiles := fun _ _ => Thrown "Failed to fetch";
     storageSet := fun _ _ => Returned tt |}.

(** The region the discovery fallback of [fetchBedrockModels] runs in. *)
Definition primaryRegionOf (selectedRegion : string) : string :=
  if String.eqb selectedRegion "multi-region"
  then "us-west-2" else selectedRegion.

(** Provider identifiers, numbers written as their literals, a URL parser
    that knows two endpoints, and a Bedrock runtime that answers one model
    and refuses another. *)
Definition sampleProviderTypes : ProviderTypeEnum :=
  {| OpenAI := "openai"; Anthropic := "anthropic"; DeepSeek := "deepseek";
     Gemini := "gemini"; Grok := "grok"; Groq := "groq";
     Cerebras := "cerebras"; Ollama := "ollama";
     OpenRouter := "openrouter"; Llama := "llama"; Bedrock := "bedrock";
     AzureOpenAI := "azure_openai" |}.

Definition sampleHostname (url : string) : outcome string :=
  if String.eqb url "https://contoso.openai.azure.com/"
  then Returned "contoso.openai.azure.com"
  else if String.eqb url "https://example.com/"
  then Returned "example.com"
  else Thrown "Invalid URL".

Definition sampleInvoke (credentials : Credentials) (region url : string)
    (body : RequestBody string) : outcome InvokeResponse :=
  if String.eqb url
       "https://bedrock-runtime.eu-west-1.amazonaws.com/model/eu.anthropic.claude-sonnet-4-5-20250929-v1:0/invoke"
  then
    Returned
      {| iv_ok := true; iv_status := 200; iv_statusText := "OK";
         iv_json :=
           Returned
             {| ir_content :=
                  Some [ {| rb_text := Some "Hello" |};
                         {| rb_text := Some "ignored" |} ] |} |}
  else
    Returned
      {| iv_ok := false; iv_status := 403; iv_statusText := "Forbidden";
         iv_json := Thrown "Unexpected end of JSON input" |}.

Definition bedrockProvider : ProviderConfig :=
  {| pc_apiKey := Some "AKIAEXAMPLE"; pc_baseUrl := Some "secret";
     pc_azureDeploymentNames := None; pc_azureApiVersion := None |}.

Definition sonnetOnBedrock : ModelConfig string :=
  {| mc_provider := "bedrock";
     mc_modelName := "eu.anthropic.claude-sonnet-4-5-20250929-v1:0";
     mc_parameters := Some {| p_topP := None; p_temperature := Some "0.7" |};
     mc_reasoningEffort := None |}.

Definition sonnetArgs : BedrockArgs string :=
  {| b_model := "eu.anthropic.claude-sonnet-4-5-20250929-v1:0";
     b_region := "eu-west-1";
     b_credentials :=
       {| accessKeyId := "AKIAEXAMPLE"; secretAccessKey := "secret" |};
     b_temperature := "0.7";
     b_topP := "0.1";
     b_maxTokens := 4096 |}.

Definition opusOnAnthropic : ModelConfig string :=
  {| mc_provider := "anthropic";
     mc_modelName := "claude-opus-4-20250514";
     mc_parameters := Some {| p_topP := Some "0.9"; p_temperature := None |};
     mc_reasoningEffort := None |}.

Definition azureProvider : ProviderConfig :=
  {| pc_apiKey := Some "azure-key";
     pc_baseUrl := Some "https://contoso.openai.azure.com/";
     pc_azureDeploymentNames := Some ["gpt-4o"; "o3-mini"];
     pc_azureApiVersion := Some "2024-10-21" |}.

Definition o3OnAzure : ModelConfig string :=
  {| mc_provider := "azure_openai_2";
     mc_modelName := "o3-mini";
     mc_parameters := None;
     mc_reasoningEffort := Some "high" |}.

Definition openRouterProvider : ProviderConfig :=
  {| pc_apiKey := Some "or-key";
     pc_baseUrl := Some "https://openrouter.ai/api/v1";
     pc_azureDeploymentNames := None; pc_azureApiVersion := None |}.

Definition gptOnOpenRouter : ModelConfig string :=
  {| mc_provider := "openrouter";
     mc_modelName := "openai/gpt-5-chat-latest";
     mc_parameters := None;
     mc_reasoningEffort := Some "low" |}.

(** The argument objects the sample configurations lead to. *)
Definition o3AzureArgs : AzureArgs string :=
  {| azureOpenAIApiInstanceName := "contoso";
     azureOpenAIApiDeploymentName := "o3-mini";
     azureOpenAIApiKey := "azure-key";
     azureOpenAIApiVersion := "2024-10-21";
     az_model := "o3-mini";
     az_modelKwargs :=
       Some {| max_completion_tokens := 4096;
               reasoning_effort := Some "high" |};
     az_temperature := None;
     az_topP := None;
     az_maxTokens := None |}.

Definition opusArgs : ChatArgs string :=
  {| a_model := "claude-opus-4-20250514";
     a_apiKey := Some "AKIAEXAMPLE";
     a_configuration := None;
     a_modelKwargs := None;
     a_topP := None;
     a_temperature := Some "0.1";
     a_maxTokens := Some 4096;
     a_clientOptions := true;
     a_baseUrl := None;
     a_numCtx := None |}.

Definition openRouterHeaders : list (string * string) :=
  [("HTTP-Referer", "https://nanobrowser.ai"); ("X-Title", "Nanobrowser")].

Definition openRouterArgs : ChatArgs string :=
  {| a_model := "openai/gpt-5-chat-latest";
     a_apiKey := Some "or-key";
     a_configuration :=
       Some {| baseURL := Some "https://openrouter.ai/api/v1";
               defaultHeaders := Some openRouterHeaders |};
     a_modelKwargs := None;
     a_topP := Some "0.1";
     a_temperature := Some "0.1";
     a_maxTokens := Some 4096;
     a_clientOptions := false;
     a_baseUrl := None;
     a_numCtx := None |}.

(** * Properties *)

(** ** Strings *)

Lemma includes_tail c s needle :
  Js.includes s needle = true -> Js.includes (String c s) needle = true.
Proof.
  intros H. cbn [Js.includes]. rewrite H. apply orb_true_r.
Qed.

Lemma includes_prefix s needle :
  String.prefix needle s = true -> Js.includes s needle = true.
Proof.
  intros H. destruct s; cbn [Js.includes]; rewrite H; reflexivity.
Qed.

(** A string that starts with [a +:+ b] contains [b]. *)
Lemma prefix_app_includes a b : forall s,
  String.prefix (a +:+ b) s = true -> Js.includes s b = true.
Proof.
  induction a as [|x a IH]; intros s H.
  - apply includes_prefix. exact H.
  - change (String x a +:+ b) with (String x (a +:+ b)) in H.
    destruct s as [|y s]; [discriminate|].
    cbn in H. destruct (ascii_dec x y); [|discriminate].
    apply includes_tail, IH, H.
Qed.

(** A string that contains [a +:+ b] contains [b]. *)
Lemma includes_app_r a b : forall s,
  Js.includes s (a +:+ b) = true -> Js.includes s b = true.
Proof.
  induction s as [|c s IH]; cbn [Js.includes]; intros H.
  - apply orb_true_iff in H as [H|H]; [|discriminate].
    apply (prefix_app_includes a b ""), H.
  - apply orb_true_iff in H as [H|H].
    + apply (prefix_app_includes a b (String c s)), H.
    + apply includes_tail, IH, H.
Qed.

(** ** Gated families *)

Lemma anthropic_branch_subsumed modelId :
  Js.includes modelId "claude-4"
  || Js.includes modelId "claude-sonnet-4"
  || Js.includes modelId "claude-opus-4"
  || Js.includes modelId "claude-haiku-4" = true ->
  matchesGatedPattern modelId = true.
Proof.
  unfold matchesGatedPattern, accessRequiredPatterns. cbn [existsb].
  intros H. rewrite !orb_true_iff in H.
  destruct H as [[[H|H]|H]|H];
    [ | apply (includes_app_r "claude-" "sonnet-4") in H
      | apply (includes_app_r "claude-" "opus-4") in H
      | apply (includes_app_r "claude-" "haiku-4") in H ];
    rewrite H;
    repeat match goal with
           | |- context [Js.includes ?m ?p] => destruct (Js.includes m p)
           end;
    reflexivity.
Qed.

Lemma isModelRequiringAccess_patterns modelId provider :
  isModelRequiringAccess modelId provider = matchesGatedPattern modelId.
Proof.
  unfold isModelRequiringAccess. fold (matchesGatedPattern modelId).
  destruct (Js.includes (Js.toLowerCase provider) "anthropic"); [|reflexivity].
  destruct (_ || _) eqn:E; [|reflexivity].
  symmetry. apply anthropic_branch_subsumed, E.
Qed.

(** C9: the gated-family predicate does not depend on the provider, so the
    access heuristic, which passes the empty provider, and catalog
    enrichment, which passes the catalog's provider, classify every
    identifier alike: by the generic pattern list alone. *)
Theorem isModelRequiringAccess_provider_irrelevant :
  forall modelId p1 p2 : string,
    isModelRequiringAccess modelId p1 = isModelRequiringAccess modelId p2
    /\ isModelRequiringAccess modelId EmptyString
       = isModelRequiringAccess modelId p1
    /\ isModelRequiringAccess modelId p1
       = existsb (fun pattern => Js.includes modelId pattern)
                 accessRequiredPatterns.
Proof.
  intros modelId p1 p2.
  rewrite !isModelRequiringAccess_patterns. repeat split; reflexivity.
Qed.

(** ** Release dates *)

Lemma takeDigits_no_digit n s :
  startsWithDigit s = false -> takeDigits (S n) s = None.
Proof.
  destruct s as [|c s]; cbn; [reflexivity|]. intros ->. reflexivity.
Qed.

Lemma digitRuns_cons c s :
  Js.isDigit c = true ->
  exists r rs, digitRuns (String c s) = String c r :: rs
    /\ (startsWithDigit s = true -> digitRuns s = r :: rs)
    /\ (startsWithDigit s = false -> r = EmptyString /\ digitRuns s = rs).
Proof.
  intros Hc. cbn [digitRuns]. rewrite Hc.
  destruct (startsWithDigit s) eqn:Hs.
  - destruct s as [|d s]; [discriminate|]. cbn in Hs.
    cbn [digitRuns]. rewrite Hs.
    destruct (if startsWithDigit s then _ else _) as [|r rs] eqn:E.
    + destruct (startsWithDigit s); [destruct (digitRuns s)|]; discriminate.
    + exists r, rs. split; [reflexivity|]. split; [reflexivity|].
      discriminate.
  - exists EmptyString, (digitRuns s). split; [reflexivity|].
    split; [discriminate|]. intros _. split; reflexivity.
Qed.

Lemma substring_head_cons n c r :
  Js.substring 0 (S n) (String c r) = String c (Js.substring 0 n r).
Proof. unfold Js.substring. rewrite !Nat.sub_0_r. reflexivity. Qed.

(** The pattern [\d{n}] anchored at the start of a digit run takes the first
    [n] digits of the run, when the run is that long. *)
Lemma takeDigits_run : forall s n r rs,
  startsWithDigit s = true ->
  digitRuns s = r :: rs ->
  takeDigits n s
  = if n <=? String.length r then Some (Js.substring 0 n r) else None.
Proof.
  induction s as [|c s IH]; intros n r rs Hd Hr; [discriminate|].
  cbn in Hd.
  destruct (digitRuns_cons c s Hd) as (r' & rs' & E & Hyes & Hno).
  rewrite E in Hr. injection Hr as <- <-.
  destruct n as [|n]; [reflexivity|].
  cbn [takeDigits]. rewrite Hd.
  destruct (startsWithDigit s) eqn:Hs.
  - rewrite (IH n r' rs' eq_refl (Hyes eq_refl)).
    cbn [String.length]. change (S n <=? S (String.length r'))
      with (n <=? String.length r').
    rewrite substring_head_cons.
    destruct (n <=? String.length r'); reflexivity.
  - destruct (Hno eq_refl) as [-> _].
    destruct n as [|n]; [reflexivity|].
    rewrite takeDigits_no_digit by exact Hs. reflexivity.
Qed.

Lemma matchEightDigits_runs s :
  matchEightDigits s
  = Js.substring 0 8
    <$> find (fun r => 8 <=? String.length r) (digitRuns s).
Proof.
  induction s as [|c s IH]; [reflexivity|].
  cbn [matchEightDigits].
  destruct (Js.isDigit c) eqn:Hc.
  - destruct (digitRuns_cons c s Hc) as (r & rs & E & Hyes & Hno).
    rewrite (takeDigits_run (String c s) 8 _ _ Hc E), E.
    cbn [find String.length].
    destruct (8 <=? S (String.length r)) eqn:Hlen; [reflexivity|].
    rewrite IH.
    destruct (startsWithDigit s) eqn:Hs.
    + rewrite (Hyes eq_refl). cbn [find].
      apply Nat.leb_gt in Hlen.
      destruct (8 <=? String.length r) eqn:Hlen'; [|reflexivity].
      apply Nat.leb_le in Hlen'. lia.
    + destruct (Hno eq_refl) as [_ ->]. reflexivity.
  - cbn [takeDigits digitRuns]. rewrite Hc. exact IH.
Qed.

(** C8, as the code has it: the release date is read from the first eight
    digits of the first maximal digit run that is at least eight digits
    long, and is unset when no digit run is that long. *)
Theorem inferReleaseDate_first_long_run :
  forall modelId : string,
    inferReleaseDate modelId
    = (fun r => asDate (Js.substring 0 8 r))
      <$> find (fun r => 8 <=? String.length r) (digitRuns modelId).
Proof.
  intros modelId. unfold inferReleaseDate.
  rewrite matchEightDigits_runs.
  destruct (find _ (digitRuns modelId)); reflexivity.
Qed.

(** C8, as the specification words it, fails on a run of ten digits: the
    code dates the identifier by the first eight of them, where the
    specification finds no run of exactly eight and leaves the date unset. *)
Lemma inferReleaseDate_not_exactly_eight :
  inferReleaseDate "model-2025092912-v1" = Some "2025-09-29"
  /\ releaseDateBySpec "model-2025092912-v1" = None
  /\ inferReleaseDate "build1234567890-20250929" = Some "1234-56-78"
  /\ releaseDateBySpec "build1234567890-20250929" = Some "2025-09-29".
Proof. repeat split; reflexivity. Qed.

Lemma substring_full r : Js.substring 0 (String.length r) r = r.
Proof.
  induction r as [|c r IH]; [reflexivity|].
  cbn [String.length]. rewrite substring_head_cons, IH. reflexivity.
Qed.

(** Where no digit run is longer than eight digits the code and the
    wording of the specification agree. *)
Lemma inferReleaseDate_agrees_without_long_runs modelId :
  (forall r, r ∈ digitRuns modelId -> String.length r <= 8) ->
  inferReleaseDate modelId = releaseDateBySpec modelId.
Proof.
  unfold inferReleaseDate, releaseDateBySpec.
  rewrite matchEightDigits_runs.
  induction (digitRuns modelId) as [|r runs IH]; intros Hlen; [reflexivity|].
  assert (Hr : String.length r <= 8) by (apply Hlen; by left).
  cbn [find]. destruct (Nat.eqb_spec (String.length r) 8) as [E|Hne].
  - assert (Hs : Js.substring 0 8 r = r).
    { rewrite <- E at 1. apply substring_full. }
    rewrite E. cbn [Nat.leb fmap option_fmap option_map].
    rewrite Hs. reflexivity.
  - replace (8 <=? String.length r) with false
      by (symmetry; apply Nat.leb_gt; lia).
    apply IH. intros r' Hr'. apply Hlen. by right.
Qed.

(** ** Blocks of statements *)

Lemma forEach_push {A B} (f : A -> B) (l : list A) : forall acc,
  forEach l (fun x => update (fun acc => acc ++ [f x])) acc
  = (Returned tt, acc ++ map f l).
Proof.
  induction l as [|x l IH]; intros acc; cbn.
  - rewrite app_nil_r. reflexivity.
  - unfold bind, update at 1. rewrite IH, <- app_assoc. reflexivity.
Qed.

(** ** Access status resolution *)

(** What [checkModelAccessStatus] returns, by the answer of the entitlement
    query. *)
Lemma checkModelAccessStatus_eq net credentials region modelIds :
  checkModelAccessStatus net credentials region modelIds
  = Returned
      match getModelAccess net credentials region with
      | Returned response =>
          if ok response then
            match json response with
            | Returned data => map (liveStatus (grantedOf data)) modelIds
            | Thrown _ => map heuristicStatus modelIds
            end
          else []
      | Thrown _ => map heuristicStatus modelIds
      end.
Proof.
  unfold checkModelAccessStatus, run, tryCatch, bind, await, get, skip, ret.
  destruct (getModelAccess net credentials region) as [[[] [data|e]]|e]; cbn.
  - rewrite (forEach_push (liveStatus (grantedOf data))). reflexivity.
  - rewrite (forEach_push heuristicStatus). reflexivity.
  - reflexivity.
  - reflexivity.
  - rewrite (forEach_push heuristicStatus). reflexivity.
Qed.

Lemma liveStatus_invariant grantedModels modelId :
  accessInvariant (liveStatus grantedModels modelId).
Proof.
  unfold accessInvariant, liveStatus. cbn. intros ->. reflexivity.
Qed.

Lemma heuristicStatus_invariant modelId :
  accessInvariant (heuristicStatus modelId)
  <-> isModelRequiringAccess modelId EmptyString = true.
Proof.
  unfold accessInvariant, heuristicStatus.
  cbn [ModelAccessStatus.hasAccess ModelAccessStatus.accessStatus].
  destruct (isModelRequiringAccess modelId EmptyString);
    cbn [negb]; split; intros H.
  - reflexivity.
  - discriminate.
  - discriminate (H eq_refl).
  - discriminate.
Qed.

(** C2: with the entitlement query failing, an identifier outside the gated
    families gets [hasAccess = true] together with [NOT_REQUESTED], where
    the invariant asks for [GRANTED]. *)
Theorem heuristic_tier_breaks_access_invariant :
  checkModelAccessStatus offline someCredentials "us-west-2"
    ["amazon.titan-text-express-v1"]
  = Returned
      [ModelAccessStatus.mk "amazon.titan-text-express-v1" true
         ModelAccessStatus.NOT_REQUESTED true]
  /\ ~ accessInvariant
         (ModelAccessStatus.mk "amazon.titan-text-express-v1" true
            ModelAccessStatus.NOT_REQUESTED true).
Proof.
  split; [reflexivity|].
  intros H. discriminate (H eq_refl).
Qed.

(** The live tier keeps the invariant of C2 on every status it returns. *)
Lemma live_tier_keeps_access_invariant
    net credentials region modelIds response data :
  getModelAccess net credentials region = Returned response ->
  ok response = true ->
  json response = Returned data ->
  exists statuses,
    checkModelAccessStatus net credentials region modelIds = Returned statuses
    /\ Forall accessInvariant statuses.
Proof.
  intros Hq Hok Hjson. eexists. split.
  - rewrite checkModelAccessStatus_eq, Hq, Hok, Hjson. reflexivity.
  - apply Forall_forall. intros s Hs.
    apply list_elem_of_fmap in Hs as (modelId & -> & _).
    apply liveStatus_invariant.
Qed.

(** One status per identifier, in order, when the entitlement query is
    answered with a success status or throws. *)
Lemma checkModelAccessStatus_ids net credentials region modelIds :
  (forall response,
      getModelAccess net credentials region = Returned response ->
      ok response = true) ->
  exists statuses,
    checkModelAccessStatus net credentials region modelIds = Returned statuses
    /\ map ModelAccessStatus.modelId statuses = modelIds.
Proof.
  intros Hok. eexists. split; [apply checkModelAccessStatus_eq|].
  destruct (getModelAccess net credentials region) as [response|e].
  - rewrite (Hok response eq_refl).
    destruct (json response); rewrite map_map; apply map_id.
  - rewrite map_map. apply map_id.
Qed.

(** C3: with the entitlement endpoint answering 403 the function returns no
    status at all for the identifier it was asked about, and the
    orchestrator then has six catalog entries and no access status. *)
Theorem non_ok_response_yields_no_status :
  checkModelAccessStatus forbidden someCredentials "us-west-2"
    ["anthropic.claude-3-haiku-20240307-v1:0"]
  = Returned []
  /\ match discoverAvailableModels forbidden someCredentials None with
     | Returned r =>
         length (catalogModels r) = 6 /\ accessStatuses r = []
     | Thrown _ => False
     end.
Proof. split; [reflexivity|]. vm_compute. split; reflexivity. Qed.

(** C10: every status [checkModelAccessStatus] returns can be requested,
    in the live tier and in the heuristic tier alike, so the gap filter of
    the orchestrator selects exactly the statuses without access. *)
Theorem checkModelAccessStatus_canRequestAccess :
  forall net credentials region modelIds,
  exists statuses,
    checkModelAccessStatus net credentials region modelIds = Returned statuses
    /\ Forall (fun s => ModelAccessStatus.canRequestAccess s = true) statuses
    /\ Forall (fun s => needsAccess s = negb (ModelAccessStatus.hasAccess s))
              statuses
    /\ List.filter needsAccess statuses
       = List.filter (fun s => negb (ModelAccessStatus.hasAccess s)) statuses.
Proof.
  intros net credentials region modelIds.
  eexists. split; [apply checkModelAccessStatus_eq|].
  match goal with |- Forall _ ?l /\ _ =>
    assert (Hall : Forall
      (fun s => ModelAccessStatus.canRequestAccess s = true) l) end.
  { destruct (getModelAccess net credentials region) as [[[] [data|e]]|e];
      cbn [ok json];
      first [ apply List.Forall_nil
            | apply Forall_forall; intros s Hs;
              apply list_elem_of_fmap in Hs as (modelId & -> & _);
              reflexivity ]. }
  split; [exact Hall|].
  assert (Hgap : forall s, ModelAccessStatus.canRequestAccess s = true ->
                           needsAccess s = negb (ModelAccessStatus.hasAccess s)).
  { intros s Hs. unfold needsAccess. rewrite Hs. apply andb_true_r. }
  split.
  - eapply Forall_impl; [exact Hall | exact Hgap].
  - induction Hall as [|s l Hs _ IH]; [reflexivity|].
    cbn [List.filter]. rewrite (Hgap s Hs), IH. reflexivity.
Qed.

(** ** Catalog acquisition *)

Lemma forEach_push_some {A B} (g : A -> option B) (l : list A) : forall acc,
  forEach l (fun x =>
    match g x with
    | Some y => update (fun acc => acc ++ [y])
    | None => skip
    end) acc
  = (Returned tt, acc ++ omap g l).
Proof.
  induction l as [|x l IH]; intros acc; cbn.
  - rewrite app_nil_r. reflexivity.
  - unfold bind at 1. destruct (g x) as [y|]; cbn.
    + rewrite IH, <- app_assoc. reflexivity.
    + apply IH.
Qed.

(** What [parseModelCatalogFromHTML] returns: its own [catch] takes every
    throw and the function falls through to [return models]. *)
Lemma parseModelCatalogFromHTML_eq net html :
  parseModelCatalogFromHTML net html
  = Returned
      match parseTables net html with
      | Returned tables =>
          match find isModelTable tables with
          | Some modelTable => omap parseRow (bodyRows modelTable)
          | None => []
          end
      | Thrown _ => []
      end.
Proof.
  unfold parseModelCatalogFromHTML, run, tryCatch, bind, await, get, throw,
    skip, ret.
  destruct (parseTables net html) as [tables|e]; [|reflexivity].
  destruct (find isModelTable tables) as [modelTable|]; [|reflexivity].
  rewrite (forEach_push_some parseRow). reflexivity.
Qed.

Lemma fetchLatestModelCatalog_eq net :
  fetchLatestModelCatalog net
  = match fetchDocumentation net with
    | Returned html =>
        match parseModelCatalogFromHTML net html with
        | Returned models => enhanceModelMetadata models
        | Thrown _ => Returned getFallbackModelCatalog
        end
    | Thrown _ => Returned getFallbackModelCatalog
    end.
Proof.
  unfold fetchLatestModelCatalog, run, tryCatch, bind, await, ret.
  destruct (fetchDocumentation net) as [html|e]; [|reflexivity].
  rewrite parseModelCatalogFromHTML_eq. reflexivity.
Qed.

(** The catalog never raises. *)
Lemma fetchLatestModelCatalog_total net :
  exists catalog, fetchLatestModelCatalog net = Returned catalog.
Proof.
  rewrite fetchLatestModelCatalog_eq.
  destruct (fetchDocumentation net) as [html|e]; [|eexists; reflexivity].
  rewrite parseModelCatalogFromHTML_eq. eexists. reflexivity.
Qed.

(** The part of C1 the code keeps: a document fetch that throws gives the
    static fallback catalog. *)
Lemma fetch_failure_gives_fallback net e :
  fetchDocumentation net = Thrown e ->
  fetchLatestModelCatalog net = Returned getFallbackModelCatalog.
Proof. intros H. rewrite fetchLatestModelCatalog_eq, H. reflexivity. Qed.

(** The part it does not: a parse that throws, or a document without the
    model table, gives the empty catalog. *)
Lemma parse_failure_gives_empty_catalog net html :
  fetchDocumentation net = Returned html ->
  (forall tables, parseTables net html = Returned tables ->
                  find isModelTable tables = None) ->
  fetchLatestModelCatalog net = Returned [].
Proof.
  intros Hdoc Hparse.
  rewrite fetchLatestModelCatalog_eq, Hdoc, parseModelCatalogFromHTML_eq.
  destruct (parseTables net html) as [tables|e]; [|reflexivity].
  rewrite (Hparse tables eq_refl). reflexivity.
Qed.

(** C1: the documentation page is fetched and holds no table.  The error
    [parseModelCatalogFromHTML] throws for that is caught inside the same
    function, so the catalog comes back empty instead of being the six
    entries of the static fallback. *)
Theorem missing_table_yields_empty_catalog :
  fetchLatestModelCatalog docsWithoutTable = Returned []
  /\ length getFallbackModelCatalog = 6.
Proof. split; reflexivity. Qed.

(** ** Command synthesis *)

Lemma split_head_beforeFirstDot s :
  default EmptyString (head (Js.splitChar "." s)) = beforeFirstDot s.
Proof.
  induction s as [|c s IH]; [reflexivity|].
  cbn [Js.splitChar beforeFirstDot].
  destruct (Ascii.eqb c "."); [reflexivity|].
  destruct (Js.splitChar "." s) as [|piece rest]; cbn in *; congruence.
Qed.

(** The namespace has no dot and is followed, in the identifier, by a dot
    or by nothing. *)
Lemma beforeFirstDot_spec s :
  Js.includes (beforeFirstDot s) "." = false
  /\ exists rest, s = beforeFirstDot s +:+ rest
       /\ (rest = EmptyString \/ exists rest', rest = String "." rest').
Proof.
  induction s as [|c s [IHa (rest & IHb & IHc)]].
  - split; [reflexivity|]. exists EmptyString. split; [reflexivity|]. by left.
  - cbn [beforeFirstDot]. destruct (Ascii.eqb c ".") eqn:E.
    + apply Ascii.eqb_eq in E as ->. split; [reflexivity|].
      exists (String "." s). split; [reflexivity|]. right. by exists s.
    + split.
      * cbn [Js.includes String.prefix]. rewrite IHa.
        destruct (ascii_dec "." c) as [<-|]; [discriminate E|].
        reflexivity.
      * exists rest. split; [|exact IHc].
        change (String c (beforeFirstDot s) +:+ rest)
          with (String c (beforeFirstDot s +:+ rest)).
        by rewrite <- IHb.
Qed.

Lemma eqb_string_decide (a b : string) :
  String.eqb a b = bool_decide (a = b).
Proof.
  destruct (String.eqb_spec a b) as [->|H].
  - by rewrite bool_decide_eq_true_2.
  - by rewrite bool_decide_eq_false_2.
Qed.

Lemma distinctInOrder_elem x l : x ∈ distinctInOrder l <-> x ∈ l.
Proof.
  induction l as [|a l IH]; [reflexivity|].
  cbn [distinctInOrder]. rewrite !elem_of_cons, <- IH.
  rewrite (list_elem_of_In (List.filter _ _) x), filter_In.
  rewrite <- list_elem_of_In.
  rewrite negb_true_iff, eqb_string_decide, bool_decide_eq_false.
  destruct (decide (x = a)); intuition congruence.
Qed.

Lemma distinctInOrder_NoDup l : NoDup (distinctInOrder l).
Proof.
  induction l as [|a l IH]; cbn [distinctInOrder]; constructor.
  - rewrite list_elem_of_In, filter_In.
    rewrite negb_true_iff, eqb_string_decide, bool_decide_eq_false.
    intros [_ H]. by apply H.
  - apply NoDup_ListNoDup, List.NoDup_filter, NoDup_ListNoDup, IH.
Qed.

Lemma distinctInOrder_snoc l x :
  distinctInOrder (l ++ [x])
  = if decide (x ∈ l) then distinctInOrder l else distinctInOrder l ++ [x].
Proof.
  induction l as [|a l IH]; [reflexivity|].
  cbn [app distinctInOrder]. rewrite IH.
  destruct (decide (x ∈ a :: l)) as [Hin'|Hnin'],
           (decide (x ∈ l)) as [Hin|Hnin]; try reflexivity.
  - apply elem_of_cons in Hin' as [->|Hin']; [|contradiction].
    rewrite List.filter_app. cbn [List.filter].
    rewrite String.eqb_refl. cbn. by rewrite app_nil_r.
  - exfalso. apply Hnin'. by right.
  - rewrite List.filter_app. cbn [List.filter].
    replace (String.eqb x a) with false; [reflexivity|].
    symmetry. apply String.eqb_neq. intros ->. apply Hnin'. by left.
Qed.

(** A map whose keys are [ks], each bound to [f] of the key. *)
Lemma mapHas_keys {V} (f : string -> V) p ks :
  Js.mapHas p (map (fun q => (q, f q)) ks) = bool_decide (p ∈ ks).
Proof.
  unfold Js.mapHas.
  induction ks as [|a ks IH]; [reflexivity|].
  cbn [map existsb fst]. rewrite IH, eqb_string_decide.
  destruct (decide (a = p)) as [->|Hne].
  - rewrite (bool_decide_eq_true_2 (p = p)) by reflexivity.
    rewrite (bool_decide_eq_true_2 (p ∈ p :: ks)) by (by left).
    reflexivity.
  - rewrite (bool_decide_eq_false_2 (a = p)) by exact Hne. cbn [orb].
    apply bool_decide_ext. rewrite elem_of_cons. intuition congruence.
Qed.

Lemma mapSet_fresh {V} (f : string -> V) p v ks :
  p ∉ ks ->
  Js.mapSet p v (map (fun q => (q, f q)) ks)
  = map (fun q => (q, f q)) ks ++ [(p, v)].
Proof.
  induction ks as [|a ks IH]; intros Hp; [reflexivity|].
  cbn [map Js.mapSet app].
  replace (String.eqb a p) with false.
  - rewrite IH; [reflexivity|]. intros H. apply Hp. by right.
  - symmetry. apply String.eqb_neq. intros ->. apply Hp. by left.
Qed.

Lemma mapPush_fresh_app (f : string -> list string) p x ks m :
  p ∉ ks ->
  Js.mapPush p x (map (fun q => (q, f q)) ks ++ m)
  = map (fun q => (q, f q)) ks ++ Js.mapPush p x m.
Proof.
  induction ks as [|a ks IH]; intros Hp; [reflexivity|].
  cbn [map Js.mapPush app].
  replace (String.eqb a p) with false.
  - rewrite IH; [reflexivity|]. intros H. apply Hp. by right.
  - symmetry. apply String.eqb_neq. intros ->. apply Hp. by left.
Qed.

Lemma mapPush_keys (f : string -> list string) p x ks :
  NoDup ks ->
  Js.mapPush p x (map (fun q => (q, f q)) ks)
  = map (fun q => (q, if String.eqb q p then f q ++ [x] else f q)) ks.
Proof.
  induction 1 as [|a ks Ha Hks IH]; [reflexivity|].
  cbn [map Js.mapPush].
  destruct (String.eqb_spec a p) as [->|Hne].
  - f_equal. apply map_ext_in. intros q Hq.
    replace (String.eqb q p) with false; [reflexivity|].
    symmetry. apply String.eqb_neq. intros ->.
    apply Ha, list_elem_of_In, Hq.
  - f_equal. exact IH.
Qed.

Lemma filter_none {A} (p : A -> bool) l :
  (forall x, x ∈ l -> p x = false) -> List.filter p l = [].
Proof.
  induction l as [|a l IH]; intros H; [reflexivity|].
  cbn [List.filter]. rewrite (H a) by (by left).
  apply IH. intros x Hx. apply H. by right.
Qed.

(** The [Map] the first loop builds is the grouping of the specification. *)
Lemma groupModelsByProvider_spec modelIds :
  groupModelsByProvider modelIds = groupsBySpec modelIds.
Proof.
  induction modelIds as [|x l IH] using rev_ind; [reflexivity|].
  unfold groupModelsByProvider in *. rewrite fold_left_app, IH.
  cbn [fold_left]. rewrite split_head_beforeFirstDot.
  unfold groupsBySpec.
  rewrite map_app. cbn [map]. rewrite distinctInOrder_snoc.
  set (p := beforeFirstDot x).
  set (ks := distinctInOrder (map beforeFirstDot l)).
  assert (Hks : NoDup ks) by apply distinctInOrder_NoDup.
  assert (HF : forall q,
    List.filter (fun m => String.eqb (beforeFirstDot m) q) (l ++ [x])
    = List.filter (fun m => String.eqb (beforeFirstDot m) q) l
      ++ if String.eqb p q then [x] else []).
  { intros q. rewrite List.filter_app. cbn [List.filter]. fold p.
    destruct (String.eqb p q); reflexivity. }
  rewrite mapHas_keys.
  destruct (decide (p ∈ map beforeFirstDot l)) as [Hin|Hnin].
  - rewrite bool_decide_eq_true_2 by (by apply distinctInOrder_elem).
    cbn [negb]. rewrite mapPush_keys by exact Hks.
    apply map_ext. intros q. rewrite HF, (String.eqb_sym q p).
    destruct (String.eqb p q); [reflexivity|]. by rewrite app_nil_r.
  - assert (Hp : p ∉ ks).
    { intros H. apply Hnin, distinctInOrder_elem, H. }
    rewrite bool_decide_eq_false_2 by exact Hp. cbn [negb].
    rewrite mapSet_fresh by exact Hp.
    rewrite mapPush_fresh_app by exact Hp.
    rewrite map_app. cbn [map Js.mapPush]. rewrite String.eqb_refl.
    f_equal.
    + apply map_ext_in. intros q Hq. rewrite HF.
      replace (String.eqb p q) with false; [by rewrite app_nil_r|].
      symmetry. apply String.eqb_neq. intros ->.
      apply Hp, list_elem_of_In, Hq.
    + rewrite HF, String.eqb_refl.
      rewrite filter_none; [reflexivity|]. intros m Hm.
      apply String.eqb_neq. intros E. apply Hnin. rewrite <- E.
      apply list_elem_of_fmap. by exists m.
Qed.

Lemma fold_left_push_all {A B} (f : A -> list B) (l : list A) : forall acc,
  fold_left (fun acc x => acc ++ f x) l acc = acc ++ concat (map f l).
Proof.
  induction l as [|x l IH]; intros acc; cbn.
  - by rewrite app_nil_r.
  - by rewrite IH, app_assoc.
Qed.

Lemma commandGroup_length region group :
  length (commandGroup region group) = 6.
Proof. destruct group. reflexivity. Qed.

Lemma concat_commandGroup_length region groups :
  length (concat (map (commandGroup region) groups)) = 6 * length groups.
Proof.
  induction groups as [|g groups IH]; [reflexivity|].
  cbn [map concat]. rewrite length_app, commandGroup_length, IH.
  cbn [length]. lia.
Qed.

Lemma groupsBySpec_keys modelIds :
  map fst (groupsBySpec modelIds)
  = distinctInOrder (map beforeFirstDot modelIds).
Proof. unfold groupsBySpec. rewrite map_map. apply map_id. Qed.



(** ** Sets and sorting *)

Lemma setAdd_elem x y s : x ∈ Js.setAdd y s <-> x ∈ s \/ x = y.
Proof.
  unfold Js.setAdd. destruct (decide (y ∈ s)) as [Hin|Hnin].
  - split; [by left|]. intros [H| ->]; assumption.
  - rewrite elem_of_app, list_elem_of_singleton. reflexivity.
Qed.


Lemma setAddAll_elem x l : forall s,
  x ∈ Js.setAddAll l s <-> x ∈ s \/ x ∈ l.
Proof.
  unfold Js.setAddAll.
  induction l as [|y l IH]; intros s; cbn [fold_left].
  - rewrite elem_of_nil. tauto.
  - rewrite IH, setAdd_elem, elem_of_cons. tauto.
Qed.


Lemma setAddAll_app l1 l2 s :
  Js.setAddAll (l1 ++ l2) s = Js.setAddAll l2 (Js.setAddAll l1 s).
Proof. apply fold_left_app. Qed.

Lemma sort_elem x l : x ∈ Js.sort l <-> x ∈ l.
Proof. unfold Js.sort. by rewrite merge_sort_Permutation. Qed.




(** ** Region fan-out *)

Lemma forEach_setAdd {A} (g : A -> string) (l : list A) : forall s,
  forEach l (fun x => update (Js.setAdd (g x))) s
  = (Returned tt, Js.setAddAll (map g l) s).
Proof.
  induction l as [|x l IH]; intros s; cbn; [reflexivity|].
  unfold bind, update at 1. rewrite IH. reflexivity.
Qed.

Lemma addFoundationModels_eq response s :
  addFoundationModels response s
  = match foundationIds (Returned response) with
    | Returned ids => (Returned tt, Js.setAddAll ids s)
    | Thrown e => (Thrown e, s)
    end.
Proof.
  unfold addFoundationModels, foundationIds.
  destruct (ok response); [|reflexivity].
  unfold bind, await. destruct (json response) as [data|e]; [|reflexivity].
  apply forEach_setAdd.
Qed.

Lemma addInferenceProfiles_eq response s :
  addInferenceProfiles response s
  = match profileIds (Returned response) with
    | Returned ids => (Returned tt, Js.setAddAll ids s)
    | Thrown e => (Thrown e, s)
    end.
Proof.
  unfold addInferenceProfiles, profileIds.
  destruct (ok response); [|reflexivity].
  unfold bind, await. destruct (json response) as [data|e]; [|reflexivity].
  apply forEach_setAdd.
Qed.

(** The two queries of one region, under either arrangement of the
    [try] blocks, leave [allModels] extended by [regionIds]. *)
Lemma fetchBedrockRegion_eq net credentials filters region s :
  fetchBedrockRegion net credentials filters region s
  = (Returned tt,
     Js.setAddAll (regionIds net credentials (queryParams filters) region) s).
Proof.
  unfold fetchBedrockRegion, regionIds, tryCatch, bind, await, skip, ret.
  destruct (getFoundationModels net credentials region (queryParams filters))
    as [fresp|e]; [|reflexivity].
  rewrite addFoundationModels_eq.
  destruct (foundationIds (Returned fresp)) as [models|e]; [|reflexivity].
  rewrite setAddAll_app.
  destruct (getInferenceProfiles net credentials region) as [presp|e];
    [|reflexivity].
  rewrite addInferenceProfiles_eq.
  destruct (profileIds (Returned presp)) as [profiles|e]; reflexivity.
Qed.

Lemma forEach_regions net credentials filters regions : forall s,
  forEach regions (fetchBedrockRegion net credentials filters) s
  = (Returned tt,
     Js.setAddAll (concat (map (regionIds net credentials (queryParams filters))
                         regions)) s).
Proof.
  induction regions as [|region regions IH]; intros s; cbn; [reflexivity|].
  unfold bind at 1. rewrite fetchBedrockRegion_eq, IH, setAddAll_app.
  reflexivity.
Qed.

Lemma queryRegions_eq net credentials filters regions :
  run (queryRegions net credentials filters regions) []
  = Returned
      (Js.sort
         (Js.setAddAll (concat (map (regionIds net credentials (queryParams filters))
                              regions)) [])).
Proof.
  unfold run, queryRegions, bind at 1. rewrite forEach_regions. reflexivity.
Qed.

Lemma fetchActuallyAvailableModels_eq net credentials region :
  fetchActuallyAvailableModels net credentials region
  = Returned (Js.sort (Js.setAddAll (regionIds net credentials [] region) [])).
Proof.
  unfold fetchActuallyAvailableModels, run, regionIds, tryCatch, bind, await,
    get, skip, ret.
  destruct (getFoundationModels net credentials region []) as [fresp|e];
    [|reflexivity].
  rewrite addFoundationModels_eq.
  destruct (foundationIds (Returned fresp)) as [models|e]; [|reflexivity].
  rewrite setAddAll_app.
  destruct (getInferenceProfiles net credentials region) as [presp|e];
    [|reflexivity].
  rewrite addInferenceProfiles_eq.
  destruct (profileIds (Returned presp)) as [profiles|e]; reflexivity.
Qed.

Lemma regionIds_elem net credentials query region id :
  id ∈ regionIds net credentials query region
  <-> exists models,
        foundationIds (getFoundationModels net credentials region query)
        = Returned models
        /\ (id ∈ models
            \/ exists profiles,
                 profileIds (getInferenceProfiles net credentials region)
                 = Returned profiles
                 /\ id ∈ profiles).
Proof.
  unfold regionIds.
  destruct (foundationIds _) as [models|e].
  - rewrite elem_of_app. split.
    + intros [H|H]; exists models; split; auto.
      destruct (profileIds _) as [profiles|e'].
      * right. exists profiles. auto.
      * by apply elem_of_nil in H.
    + intros (models' & E & [H|(profiles & E' & H)]).
      * injection E as <-. by left.
      * rewrite E'. by right.
  - split; [by intros H%elem_of_nil|]. intros (models & E & _). discriminate.
Qed.

Lemma merged_elem net credentials query regions id :
  id ∈ Js.sort
         (Js.setAddAll
            (concat (map (regionIds net credentials query) regions)) [])
  <-> exists region,
        region ∈ regions /\ id ∈ regionIds net credentials query region.
Proof.
  rewrite sort_elem, setAddAll_elem, elem_of_nil.
  split.
  - intros [[]|Hid]. apply list_elem_of_In, in_concat in Hid.
    destruct Hid as (l & Hl & Hid).
    apply in_map_iff in Hl as (region & <- & Hr).
    exists region. split; by apply list_elem_of_In.
  - intros (region & Hr & Hid). right.
    apply list_elem_of_In, in_concat.
    exists (regionIds net credentials query region). split.
    + apply in_map, list_elem_of_In, Hr.
    + apply list_elem_of_In, Hid.
Qed.

(** C4, as the claim words it, fails where the foundation-models request
    throws: the inference-profiles request of that region would answer with
    an active profile, and the merged result is empty all the same, in
    [fetchBedrockModels] and in [fetchActuallyAvailableModels]. *)
Lemma thrown_foundation_query_drops_profiles :
  profileIds (getInferenceProfiles foundationDown someCredentials "us-west-2")
  = Returned ["us.anthropic.claude-sonnet-4-5-20250929-v1:0"]
  /\ run (queryRegions foundationDown someCredentials noFilters ["us-west-2"])
         []
     = Returned []
  /\ fetchActuallyAvailableModels foundationDown someCredentials "us-west-2"
     = Returned [].
Proof. repeat split; reflexivity. Qed.

(** C4, as the code has it.  The merged result holds exactly the
    identifiers of the regions whose foundation-models query did not throw:
    the active text models of that query, none when it was answered with a
    non-2xx status, and the active inference profiles of the region unless
    the inference-profiles query threw.  So a region never affects what
    another region adds, a non-2xx answer to either query leaves the other
    query of the region its say, and a failing inference-profiles query
    leaves the foundation models of the region in place; a foundation-models
    query that throws ends the work on its region only. *)
Theorem fan_out_fault_tolerance :
  forall net credentials filters regions,
    (exists merged,
        run (queryRegions net credentials filters regions) []
        = Returned merged
        /\ forall id,
             id ∈ merged
             <-> exists region,
                   region ∈ regions
                   /\ exists models,
                        foundationIds
                          (getFoundationModels net credentials region
                             (queryParams filters))
                        = Returned models
                        /\ (id ∈ models
                            \/ exists profiles,
                                 profileIds
                                   (getInferenceProfiles net credentials
                                      region)
                                 = Returned profiles
                                 /\ id ∈ profiles))
    /\ (forall region,
          exists merged,
            fetchActuallyAvailableModels net credentials region
            = Returned merged
            /\ forall id,
                 id ∈ merged
                 <-> exists models,
                       foundationIds
                         (getFoundationModels net credentials region [])
                       = Returned models
                       /\ (id ∈ models
                           \/ exists profiles,
                                profileIds
                                  (getInferenceProfiles net credentials
                                     region)
                                = Returned profiles
                                /\ id ∈ profiles))
    /\ (forall response : Response Foundation.Data,
          ok response = false ->
          foundationIds (Returned response) = Returned [])
    /\ (forall response : Response Profile.Data,
          ok response = false ->
          profileIds (Returned response) = Returned []).
Proof.
  intros net credentials filters regions. repeat split.
  - eexists. split; [apply queryRegions_eq|]. intros id.
    rewrite merged_elem. setoid_rewrite regionIds_elem. reflexivity.
  - intros region. eexists.
    split; [apply fetchActuallyAvailableModels_eq|]. intros id.
    rewrite sort_elem, setAddAll_elem, elem_of_nil, regionIds_elem. tauto.
  - intros response H. unfold foundationIds. by rewrite H.
  - intros response H. unfold profileIds. by rewrite H.
Qed.

(** ** Order independence *)



(** The array of C4 and C6 is what [fetchBedrockModels] returns whenever
    it is not empty. *)
Lemma fetchBedrockModels_merged net credentials selectedRegion filters merged :
  run (queryRegions net credentials filters (regionsOf selectedRegion)) []
  = Returned merged ->
  merged <> [] ->
  fetchBedrockModels net credentials (Some selectedRegion) (Some filters)
  = Returned merged.
Proof.
  rewrite queryRegions_eq. intros [= <-] Hne.
  unfold fetchBedrockModels, run, queryRegions.
  cbn [default]. unfold bind at 1 2. rewrite forEach_regions.
  unfold bind, get, ret. cbn [fst snd].
  destruct (Js.sort _) as [|x l]; [contradiction|]. reflexivity.
Qed.

(** ** The orchestrator *)

Lemma discoverAvailableModels_eq net credentials region :
  discoverAvailableModels net credentials region
  = let region := default "us-west-2" region in
    match fetchLatestModelCatalog net with
    | Returned catalog =>
        match checkModelAccessStatus net credentials region
                (map BedrockModelInfo.modelId catalog) with
        | Returned statuses =>
            match fetchActuallyAvailableModels net credentials region with
            | Returned available =>
                Returned
                  {| availableModels := available;
                     catalogModels := catalog;
                     accessStatuses := statuses;
                     cliCommands :=
                       generateAccessRequestCommands
                         (map ModelAccessStatus.modelId
                              (List.filter needsAccess statuses))
                         (Some region) |}
            | Thrown e => Thrown e
            end
        | Thrown e => Thrown e
        end
    | Thrown e => Thrown e
    end.
Proof.
  unfold discoverAvailableModels, run, bind, await, ret. cbn zeta.
  destruct (fetchLatestModelCatalog net) as [catalog|e]; [|reflexivity].
  destruct (checkModelAccessStatus _ _ _ _) as [statuses|e]; [|reflexivity].
  destruct (fetchActuallyAvailableModels _ _ _); reflexivity.
Qed.

Lemma checkModelAccessStatus_no_ids net credentials region :
  checkModelAccessStatus net credentials region [] = Returned [].
Proof.
  rewrite checkModelAccessStatus_eq.
  destruct (getModelAccess net credentials region) as [[[] [data|e]]|e];
    reflexivity.
Qed.

Lemma checkModelAccessStatus_total net credentials region modelIds :
  exists statuses,
    checkModelAccessStatus net credentials region modelIds = Returned statuses.
Proof. eexists. apply checkModelAccessStatus_eq. Qed.

Lemma fetchActuallyAvailableModels_total net credentials region :
  exists available,
    fetchActuallyAvailableModels net credentials region = Returned available.
Proof. eexists. apply fetchActuallyAvailableModels_eq. Qed.

(** C5, as the claim words it, fails in both directions.  With every
    request throwing the result is far from empty: the six entries of the
    static catalog, a status for each and their eighteen lines of
    commands.  And with every request answered, by a model table without
    rows and an account without models, all four fields are empty. *)
Lemma total_failure_is_not_all_empty :
  match discoverAvailableModels offline someCredentials None with
  | Returned r =>
      catalogModels r = getFallbackModelCatalog
      /\ length (accessStatuses r) = 6
      /\ length (cliCommands r) = 18
      /\ availableModels r = []
  | Thrown _ => False
  end
  /\ discoverAvailableModels emptyAccount someCredentials None
     = Returned {| availableModels := []; catalogModels := [];
                   accessStatuses := []; cliCommands := [] |}.
Proof. split; vm_compute; repeat split; reflexivity. Qed.

(** C5, as the code has it: the orchestrator never raises; its result
    holds what the three sub-steps returned and the commands for the gaps
    among the statuses; a document fetch that throws leaves the static
    catalog in the result, which is then not all-empty whatever else fails;
    and the result is all-empty exactly when the catalog and the available
    identifiers are both empty. *)
Theorem discoverAvailableModels_total :
  forall net credentials region,
  exists r,
    discoverAvailableModels net credentials region = Returned r
    /\ fetchLatestModelCatalog net = Returned (catalogModels r)
    /\ checkModelAccessStatus net credentials (default "us-west-2" region)
         (map BedrockModelInfo.modelId (catalogModels r))
       = Returned (accessStatuses r)
    /\ fetchActuallyAvailableModels net credentials
         (default "us-west-2" region)
       = Returned (availableModels r)
    /\ cliCommands r
       = generateAccessRequestCommands
           (map ModelAccessStatus.modelId
                (List.filter needsAccess (accessStatuses r)))
           (Some (default "us-west-2" region))
    /\ ((exists e, fetchDocumentation net = Thrown e) ->
        catalogModels r = getFallbackModelCatalog /\ ~ allEmpty r)
    /\ (allEmpty r <-> catalogModels r = [] /\ availableModels r = []).
Proof.
  intros net credentials region.
  destruct (fetchLatestModelCatalog_total net) as [catalog Hcat].
  destruct (checkModelAccessStatus_total net credentials
              (default "us-west-2" region)
              (map BedrockModelInfo.modelId catalog)) as [statuses Hst].
  destruct (fetchActuallyAvailableModels_total net credentials
              (default "us-west-2" region)) as [available Hav].
  eexists. split.
  { rewrite discoverAvailableModels_eq. cbn zeta.
    rewrite Hcat, Hst, Hav. reflexivity. }
  cbn [catalogModels accessStatuses availableModels cliCommands].
  split; [exact Hcat|]. split; [exact Hst|]. split; [exact Hav|].
  split; [reflexivity|].
  split.
  - intros [e He]. rewrite (fetch_failure_gives_fallback net e He) in Hcat.
    injection Hcat as <-. split; [reflexivity|].
    intros (_ & H & _). discriminate H.
  - unfold allEmpty. cbn [catalogModels accessStatuses availableModels
      cliCommands].
    split; [tauto|]. intros [-> ->].
    rewrite checkModelAccessStatus_no_ids in Hst. injection Hst as <-.
    repeat split; reflexivity.
Qed.

(** ** Runs on concrete networks *)


(** The entitlement scenario of the specification: one identifier granted,
    one gated identifier not requested, and one command group, for the
    namespace of the second. *)
Example one_grant_scenario :
  checkModelAccessStatus oneGrant someCredentials "us-west-2"
    ["anthropic.claude-3-5-sonnet-20241022-v2:0";
     "anthropic.claude-sonnet-4-5-20250929-v1:0"]
  = Returned
      [ ModelAccessStatus.mk "anthropic.claude-3-5-sonnet-20241022-v2:0"
          true ModelAccessStatus.GRANTED true;
        ModelAccessStatus.mk "anthropic.claude-sonnet-4-5-20250929-v1:0"
          false ModelAccessStatus.NOT_REQUESTED true ]
  /\ groupModelsByProvider ["anthropic.claude-sonnet-4-5-20250929-v1:0"]
     = [("anthropic", ["anthropic.claude-sonnet-4-5-20250929-v1:0"])]
  /\ length (generateAccessRequestCommands
               ["anthropic.claude-sonnet-4-5-20250929-v1:0"]
               (Some "us-west-2")) = 6.
Proof. repeat split; reflexivity. Qed.

(** The heuristic scenario of the specification: the query throws and a
    gated identifier is marked without access and requestable. *)
Example heuristic_scenario :
  checkModelAccessStatus offline someCredentials "us-west-2"
    ["anthropic.claude-opus-4-20250514-v1:0"]
  = Returned
      [ ModelAccessStatus.mk "anthropic.claude-opus-4-20250514-v1:0"
          false ModelAccessStatus.NOT_REQUESTED true ].
Proof. reflexivity. Qed.

(** Grouping keeps first-encounter order of the namespaces and the order
    of the identifiers in each. *)
Example grouping_order :
  groupModelsByProvider
    ["us.anthropic.b"; "anthropic.a"; "us.anthropic.c"; "plain";
     "anthropic.d"]
  = [ ("us", ["us.anthropic.b"; "us.anthropic.c"]);
      ("anthropic", ["anthropic.a"; "anthropic.d"]);
      ("plain", ["plain"]) ].
Proof. reflexivity. Qed.

(** The row parser on a row of the model table. *)
Example parseRow_sample :
  parseRow ["Anthropic"; " Claude Sonnet 4.5 ";
            "anthropic.claude-sonnet-4-5-20250929-v1:0";
            "us-east-1  us-west-2 *"; "Text, Image"; "Text,Chat"; "Yes"]
  = Some (BedrockModelInfo.mk
            "anthropic.claude-sonnet-4-5-20250929-v1:0" "Claude Sonnet 4.5"
            "Anthropic" ["us-east-1"; "us-west-2"] ["Text"; "Image"]
            ["Text"; "Chat"] true true BedrockModelInfo.ACTIVE None).
Proof. reflexivity. Qed.

(** With nothing reachable the top-level function ends on the catalog
    identifiers of the discovery. *)
Example fetchBedrockModels_offline :
  fetchBedrockModels offline someCredentials None None
  = Returned (map BedrockModelInfo.modelId getFallbackModelCatalog).
Proof. vm_compute. reflexivity. Qed.

(** * Further properties of the code *)

(** ** Release dates and gated families *)

Lemma takeDigits_Some : forall n s d,
  takeDigits n s = Some d ->
  String.length d = n /\ allDigits d = true /\ String.prefix d s = true.
Proof.
  induction n as [|n IH]; intros s d H; cbn in H.
  - injection H as <-. destruct s; repeat split; reflexivity.
  - destruct s as [|c s]; [discriminate|].
    destruct (Js.isDigit c) eqn:Hc; [|discriminate].
    destruct (takeDigits n s) as [d'|] eqn:E; [|discriminate].
    injection H as <-. destruct (IH s d' E) as (Hl & Hd & Hp).
    cbn [String.length allDigits String.prefix]. rewrite Hl, Hc, Hd.
    destruct (ascii_dec c c); [|contradiction]. auto.
Qed.

Lemma matchEightDigits_Some : forall s d,
  matchEightDigits s = Some d ->
  String.length d = 8 /\ allDigits d = true /\ Js.includes s d = true.
Proof.
  induction s as [|c s IH]; intros d H; cbn [matchEightDigits] in H.
  - discriminate.
  - destruct (takeDigits 8 (String c s)) as [d'|] eqn:E.
    + injection H as <-. destruct (takeDigits_Some _ _ _ E) as (Hl & Hd & Hp).
      repeat split; try assumption. by apply includes_prefix.
    + destruct (IH d H) as (Hl & Hd & Hi).
      repeat split; try assumption. by apply includes_tail.
Qed.

(** X1: a release date, when there is one, is ten characters
    [YYYY-MM-DD] whose eight digits stand together, in that order, in the
    identifier. *)
Theorem inferReleaseDate_shape :
  forall modelId date,
    inferReleaseDate modelId = Some date ->
    exists year month day,
      date = year +:+ "-" +:+ month +:+ "-" +:+ day
      /\ String.length year = 4
      /\ String.length month = 2
      /\ String.length day = 2
      /\ allDigits (year +:+ month +:+ day) = true
      /\ Js.includes modelId (year +:+ month +:+ day) = true
      /\ String.length date = 10.
Proof.
  intros modelId date H. unfold inferReleaseDate in H.
  destruct (matchEightDigits modelId) as [d|] eqn:E; [|discriminate].
  injection H as <-.
  destruct (matchEightDigits_Some _ _ E) as (Hl & Hd & Hi).
  destruct d as [|c1 [|c2 [|c3 [|c4 [|c5 [|c6 [|c7 [|c8 [|c9 d]]]]]]]]];
    try discriminate Hl.
  exists (String c1 (String c2 (String c3 (String c4 EmptyString)))),
         (String c5 (String c6 EmptyString)),
         (String c7 (String c8 EmptyString)).
  repeat split; try reflexivity; assumption.
Qed.

Lemma inferReleaseDate_shape_opus :
  exists year month day,
    "2025-05-14" = year +:+ "-" +:+ month +:+ "-" +:+ day
    /\ String.length year = 4
    /\ String.length month = 2
    /\ String.length day = 2
    /\ allDigits (year +:+ month +:+ day) = true
    /\ Js.includes "anthropic.claude-opus-4-20250514-v1:0"
                   (year +:+ month +:+ day) = true
    /\ String.length "2025-05-14" = 10.
Proof.
  exact (inferReleaseDate_shape "anthropic.claude-opus-4-20250514-v1:0"
           "2025-05-14" eq_refl).
Defined.

Lemma prefix_app_r p s b :
  String.prefix p s = true -> String.prefix p (s +:+ b) = true.
Proof.
  revert s. induction p as [|x p IH]; intros s H.
  - destruct (s +:+ b); reflexivity.
  - destruct s as [|y s]; [discriminate|].
    change (String y s +:+ b) with (String y (s +:+ b)).
    cbn [String.prefix] in *. destruct (ascii_dec x y); [|discriminate].
    by apply IH.
Qed.

Lemma includes_app_right s b p :
  Js.includes s p = true -> Js.includes (s +:+ b) p = true.
Proof.
  induction s as [|c s IH]; cbn [Js.includes]; intros H.
  - rewrite orb_false_r in H. apply includes_prefix.
    by apply (prefix_app_r p EmptyString b).
  - change (String c s +:+ b) with (String c (s +:+ b)).
    apply orb_true_iff in H as [H|H].
    + apply includes_prefix. by apply (prefix_app_r p (String c s) b).
    + apply includes_tail, IH, H.
Qed.

Lemma includes_app_left a s p :
  Js.includes s p = true -> Js.includes (a +:+ s) p = true.
Proof.
  intros H. induction a as [|c a IH]; [exact H|].
  change (String c a +:+ s) with (String c (a +:+ s)).
  by apply includes_tail.
Qed.

(** X2: a gated identifier stays gated inside a longer identifier,
    whatever is put before it (a cross-region prefix) or after it (a
    version or context-window suffix), and whatever the providers are. *)
Theorem gated_inside_longer_identifier :
  forall modelId provider before after provider',
    isModelRequiringAccess modelId provider = true ->
    isModelRequiringAccess (before +:+ modelId +:+ after) provider' = true.
Proof.
  intros modelId provider before after provider'.
  rewrite !isModelRequiringAccess_patterns. unfold matchesGatedPattern.
  rewrite !existsb_exists. intros (pattern & Hin & Hp).
  exists pattern. split; [exact Hin|].
  by apply includes_app_left, includes_app_right.
Qed.

Lemma gated_cross_region_profile :
  isModelRequiringAccess
    ("us." +:+ "anthropic.claude-sonnet-4-20250514-v1:0" +:+ ":200k")
    "Anthropic" = true.
Proof.
  exact (gated_inside_longer_identifier
           "anthropic.claude-sonnet-4-20250514-v1:0" EmptyString
           "us." ":200k" "Anthropic" eq_refl).
Defined.

(** ** The catalog *)

Lemma parseRow_Some cells model :
  parseRow cells = Some model ->
  6 <= length cells
  /\ BedrockModelInfo.modelId model <> EmptyString
  /\ BedrockModelInfo.provider model <> EmptyString
  /\ BedrockModelInfo.status model = BedrockModelInfo.ACTIVE
  /\ BedrockModelInfo.releaseDate model = None
  /\ (EmptyString ∉ BedrockModelInfo.regions model)
  /\ ("*" ∉ BedrockModelInfo.regions model)
  /\ BedrockModelInfo.requiresAccess model
     = isModelRequiringAccess (BedrockModelInfo.modelId model)
                              (BedrockModelInfo.provider model).
Proof.
  unfold parseRow. destruct (Nat.ltb_spec (length cells) 6); [discriminate|].
  destruct (negb (String.eqb (Js.trim (default EmptyString (cells !! 2)))
                             EmptyString)) eqn:Hid; [|discriminate].
  destruct (negb (String.eqb (Js.trim (default EmptyString (cells !! 0)))
                             EmptyString)) eqn:Hprov; [|discriminate].
  cbn [andb]. intros [= <-]. cbn.
  apply negb_true_iff, String.eqb_neq in Hid, Hprov.
  repeat split; try assumption.
  - intros Hin%list_elem_of_In%filter_In. by destruct Hin as [_ Hin].
  - intros Hin%list_elem_of_In%filter_In. destruct Hin as [_ Hin].
    by rewrite andb_false_r in Hin.
Qed.

(** X3: parsing the documentation never raises, and every model it yields
    has an identifier and a provider that are not empty, is [ACTIVE], has
    no release date yet, lists neither an empty region nor the wildcard, and
    carries the gating of its identifier. *)
Theorem parsed_models_well_formed :
  forall net html,
  exists models,
    parseModelCatalogFromHTML net html = Returned models
    /\ Forall (fun model =>
                 BedrockModelInfo.modelId model <> EmptyString
                 /\ BedrockModelInfo.provider model <> EmptyString
                 /\ BedrockModelInfo.status model = BedrockModelInfo.ACTIVE
                 /\ BedrockModelInfo.releaseDate model = None
                 /\ (EmptyString ∉ BedrockModelInfo.regions model)
                 /\ ("*" ∉ BedrockModelInfo.regions model)
                 /\ BedrockModelInfo.requiresAccess model
                    = isModelRequiringAccess
                        (BedrockModelInfo.modelId model)
                        (BedrockModelInfo.provider model))
              models.
Proof.
  intros net html. eexists. split; [apply parseModelCatalogFromHTML_eq|].
  destruct (parseTables net html) as [tables|e]; [|constructor].
  destruct (find isModelTable tables) as [table|]; [|constructor].
  apply Forall_forall. intros model Hin.
  apply list_elem_of_omap in Hin as (cells & _ & Hrow).
  apply parseRow_Some in Hrow. tauto.
Qed.

Lemma omap_length_le {A B} (f : A -> option B) l :
  length (omap f l) <= length l.
Proof.
  induction l as [|x l IH]; cbn; [lia|]. destruct (f x); cbn; lia.
Qed.

Lemma find_first {A} (p : A -> bool) before x after :
  Forall (fun y => p y = false) before -> p x = true ->
  find p (before ++ x :: after) = Some x.
Proof.
  induction 1 as [|y before Hy _ IH]; intros Hx; cbn [app find].
  - by rewrite Hx.
  - rewrite Hy. by apply IH.
Qed.

(** X4: only the first table with both headers is read.  The tables before
    it and after it, model tables or not, leave the result unchanged, and
    its rows are taken in order, a row of fewer than six cells or without
    identifier or provider being passed over. *)
Theorem first_model_table_only :
  forall net html before table after,
    parseTables net html = Returned (before ++ table :: after) ->
    Forall (fun t => isModelTable t = false) before ->
    isModelTable table = true ->
    parseModelCatalogFromHTML net html
    = Returned (omap parseRow (bodyRows table))
    /\ length (omap parseRow (bodyRows table)) <= length (bodyRows table)
    /\ forall cells,
         length cells < 6 -> parseRow cells = None.
Proof.
  intros net html before table after Hparse Hbefore Htable.
  rewrite parseModelCatalogFromHTML_eq, Hparse.
  rewrite (find_first _ _ _ _ Hbefore Htable).
  split; [reflexivity|]. split.
  - apply omap_length_le.
  - intros cells Hlen. unfold parseRow.
    by destruct (Nat.ltb_spec (length cells) 6); [|lia].
Qed.

Lemma first_model_table_only_sample :
  parseModelCatalogFromHTML docsThreeTables "<html>...</html>"
  = Returned
      [ BedrockModelInfo.mk "anthropic.claude-opus-4-20250514-v1:0"
          "Claude Opus 4" "Anthropic" ["us-east-1"; "us-west-2"]
          ["Text"; "Image"] ["Text"] true true BedrockModelInfo.ACTIVE None;
        BedrockModelInfo.mk "amazon.nova-lite-v1:0" "Nova Lite" "Amazon"
          ["us-east-1"] ["Text"] ["Text"] false false
          BedrockModelInfo.ACTIVE None ].
Proof.
  refine (proj1 (first_model_table_only docsThreeTables "<html>...</html>"
                   [regionTable] modelTable [laterModelTable] eq_refl _
                   eq_refl)).
  repeat constructor.
Defined.

(** X5: enrichment is idempotent and touches only the two derived fields:
    the entries keep their number, order, identifiers, names, providers,
    regions, modalities, streaming flag and status. *)
Theorem enhanceModelMetadata_idempotent :
  forall models,
  exists enhanced,
    enhanceModelMetadata models = Returned enhanced
    /\ enhanceModelMetadata enhanced = Returned enhanced
    /\ Forall derivedFieldsAgree enhanced
    /\ Forall2 (fun model e =>
                  BedrockModelInfo.modelId e = BedrockModelInfo.modelId model
                  /\ BedrockModelInfo.modelName e
                     = BedrockModelInfo.modelName model
                  /\ BedrockModelInfo.provider e
                     = BedrockModelInfo.provider model
                  /\ BedrockModelInfo.regions e
                     = BedrockModelInfo.regions model
                  /\ BedrockModelInfo.inputModalities e
                     = BedrockModelInfo.inputModalities model
                  /\ BedrockModelInfo.outputModalities e
                     = BedrockModelInfo.outputModalities model
                  /\ BedrockModelInfo.streamingSupported e
                     = BedrockModelInfo.streamingSupported model
                  /\ BedrockModelInfo.status e
                     = BedrockModelInfo.status model)
               models enhanced.
Proof.
  intros models. eexists. split; [reflexivity|].
  split; [|split].
  - unfold enhanceModelMetadata. f_equal. rewrite map_map.
    apply map_ext. intros model. reflexivity.
  - apply Forall_forall. intros e He.
    apply list_elem_of_fmap in He as (model & -> & _). by split.
  - induction models as [|model models IH]; cbn [map]; constructor.
    + repeat split.
    + exact IH.
Qed.

Lemma enhance_fixes_derived models :
  Forall derivedFieldsAgree models ->
  enhanceModelMetadata models = Returned models.
Proof.
  intros H. unfold enhanceModelMetadata. f_equal.
  induction H as [|model models [Hr Hd] _ IH]; [reflexivity|].
  cbn [map]. rewrite IH, <- Hr, <- Hd. by destruct model.
Qed.

Lemma fetchLatestModelCatalog_agree net :
  exists catalog,
    fetchLatestModelCatalog net = Returned catalog
    /\ Forall derivedFieldsAgree catalog.
Proof.
  assert (Hfb : Forall derivedFieldsAgree getFallbackModelCatalog).
  { repeat constructor. }
  rewrite fetchLatestModelCatalog_eq.
  destruct (fetchDocumentation net) as [html|e]; [|by eexists].
  rewrite parseModelCatalogFromHTML_eq.
  eexists. split; [reflexivity|].
  apply Forall_forall. intros e He.
  apply list_elem_of_fmap in He as (model & -> & _). by split.
Qed.

(** X6: whichever tier the catalog comes from, the parsed documentation or
    the static list, each entry has [requiresAccess] and [releaseDate] as
    enrichment computes them from its identifier and provider, so enriching
    the catalog again changes nothing. *)
Theorem catalog_derived_fields_agree :
  forall net,
  exists catalog,
    fetchLatestModelCatalog net = Returned catalog
    /\ Forall derivedFieldsAgree catalog
    /\ enhanceModelMetadata catalog = Returned catalog.
Proof.
  intros net.
  destruct (fetchLatestModelCatalog_agree net) as (catalog & Hcat & Hagree).
  exists catalog. split; [exact Hcat|]. split; [exact Hagree|].
  by apply enhance_fixes_derived.
Qed.

(** ** Access statuses *)

Lemma setOf_elem x l : x ∈ Js.setOf l <-> x ∈ l.
Proof.
  unfold Js.setOf. rewrite setAddAll_elem, elem_of_nil. tauto.
Qed.

(** X7: the function never raises, never reports [PENDING] or [DENIED],
    and returns either no status at all or one status per identifier asked
    about, in the order asked. *)
Theorem checkModelAccessStatus_states :
  forall net credentials region modelIds,
  exists statuses,
    checkModelAccessStatus net credentials region modelIds = Returned statuses
    /\ Forall (fun s =>
                 ModelAccessStatus.accessStatus s = ModelAccessStatus.GRANTED
                 \/ ModelAccessStatus.accessStatus s
                    = ModelAccessStatus.NOT_REQUESTED)
              statuses
    /\ (statuses = []
        \/ map ModelAccessStatus.modelId statuses = modelIds).
Proof.
  intros net credentials region modelIds. eexists.
  split; [apply checkModelAccessStatus_eq|].
  destruct (getModelAccess net credentials region) as [[[] [data|e]]|e];
    cbn [ok json];
    (split;
     [ first
         [ apply List.Forall_nil
         | apply Forall_forall; intros s Hs;
           apply list_elem_of_fmap in Hs as (modelId & -> & _); cbn;
           try destruct (Js.setHas modelId (grantedOf data)); auto ]
     | first [ by left | right; rewrite map_map; apply map_id ] ]).
Qed.

(** X8: when the entitlement query is answered, an identifier has access
    exactly when the answer lists it, however often, and has access exactly
    when it is [GRANTED]. *)
Theorem live_tier_membership :
  forall net credentials region modelIds response data,
    getModelAccess net credentials region = Returned response ->
    ok response = true ->
    json response = Returned data ->
    exists statuses,
      checkModelAccessStatus net credentials region modelIds
      = Returned statuses
      /\ map ModelAccessStatus.modelId statuses = modelIds
      /\ Forall (fun s =>
                   (ModelAccessStatus.hasAccess s = true
                    <-> ModelAccessStatus.modelId s
                        ∈ map ModelAccess.modelId
                            (default []
                               (ModelAccess.modelAccessSummaries data)))
                   /\ (ModelAccessStatus.accessStatus s
                       = ModelAccessStatus.GRANTED
                       <-> ModelAccessStatus.hasAccess s = true))
                statuses.
Proof.
  intros net credentials region modelIds response data Hq Hok Hjson.
  eexists. split.
  { rewrite checkModelAccessStatus_eq, Hq, Hok, Hjson. reflexivity. }
  split; [rewrite map_map; apply map_id|].
  apply Forall_forall. intros s Hs.
  apply list_elem_of_fmap in Hs as (modelId & -> & _).
  unfold liveStatus, grantedOf, Js.setHas.
  cbn [ModelAccessStatus.hasAccess ModelAccessStatus.accessStatus
       ModelAccessStatus.modelId].
  split.
  - etransitivity; [apply bool_decide_eq_true|]. apply setOf_elem.
  - destruct (bool_decide _); split; intros H; try reflexivity;
      discriminate.
Qed.

Lemma live_tier_membership_sample :
  exists statuses,
    checkModelAccessStatus oneGrant someCredentials "us-west-2"
      ["anthropic.claude-3-5-sonnet-20241022-v2:0";
       "anthropic.claude-sonnet-4-5-20250929-v1:0"]
    = Returned statuses
    /\ map ModelAccessStatus.modelId statuses
       = ["anthropic.claude-3-5-sonnet-20241022-v2:0";
          "anthropic.claude-sonnet-4-5-20250929-v1:0"]
    /\ Forall (fun s =>
                 (ModelAccessStatus.hasAccess s = true
                  <-> ModelAccessStatus.modelId s
                      ∈ ["anthropic.claude-3-5-sonnet-20241022-v2:0"])
                 /\ (ModelAccessStatus.accessStatus s
                     = ModelAccessStatus.GRANTED
                     <-> ModelAccessStatus.hasAccess s = true))
              statuses.
Proof.
  exact (live_tier_membership oneGrant someCredentials "us-west-2" _ _ _
           eq_refl eq_refl eq_refl).
Defined.

Lemma heuristic_statuses_of_catalog catalog :
  Forall derivedFieldsAgree catalog ->
  Forall2 (fun model s =>
             ModelAccessStatus.modelId s = BedrockModelInfo.modelId model
             /\ ModelAccessStatus.hasAccess s
                = negb (BedrockModelInfo.requiresAccess model))
          catalog
          (map heuristicStatus (map BedrockModelInfo.modelId catalog))
  /\ map ModelAccessStatus.modelId
         (List.filter needsAccess
            (map heuristicStatus (map BedrockModelInfo.modelId catalog)))
     = map BedrockModelInfo.modelId
           (List.filter BedrockModelInfo.requiresAccess catalog).
Proof.
  induction 1 as [|model catalog [Hr _] _ [IH1 IH2]]; [by split|].
  assert (E : isModelRequiringAccess (BedrockModelInfo.modelId model)
                EmptyString
              = BedrockModelInfo.requiresAccess model).
  { rewrite Hr, !isModelRequiringAccess_patterns. reflexivity. }
  cbn [map List.filter]. split.
  - constructor; [|exact IH1]. unfold heuristicStatus.
    cbn [ModelAccessStatus.modelId ModelAccessStatus.hasAccess].
    by rewrite E.
  - set (restL := List.filter needsAccess _) in *.
    set (restR := List.filter BedrockModelInfo.requiresAccess catalog) in *.
    unfold needsAccess, heuristicStatus.
    cbn [ModelAccessStatus.hasAccess ModelAccessStatus.canRequestAccess].
    rewrite E.
    destruct (BedrockModelInfo.requiresAccess model);
      cbn [negb andb map ModelAccessStatus.modelId]; by rewrite IH2.
Qed.

(** X9: when the entitlement query throws, the statuses follow the
    catalog: each entry has access exactly when it is not flagged
    [requiresAccess], and the identifiers the commands are generated for
    are those of the flagged entries, in catalog order. *)
Theorem heuristic_gaps_follow_catalog :
  forall net credentials region e,
    getModelAccess net credentials (default "us-west-2" region) = Thrown e ->
    exists r,
      discoverAvailableModels net credentials region = Returned r
      /\ Forall2 (fun model s =>
                    ModelAccessStatus.modelId s
                    = BedrockModelInfo.modelId model
                    /\ ModelAccessStatus.hasAccess s
                       = negb (BedrockModelInfo.requiresAccess model))
                 (catalogModels r) (accessStatuses r)
      /\ cliCommands r
         = generateAccessRequestCommands
             (map BedrockModelInfo.modelId
                  (List.filter BedrockModelInfo.requiresAccess
                               (catalogModels r)))
             (Some (default "us-west-2" region)).
Proof.
  intros net credentials region e Hq.
  destruct (fetchLatestModelCatalog_agree net) as (catalog & Hcat & Hagree).
  destruct (fetchActuallyAvailableModels_total net credentials
              (default "us-west-2" region)) as [available Hav].
  destruct (heuristic_statuses_of_catalog catalog Hagree) as [H1 H2].
  eexists. split.
  { rewrite discoverAvailableModels_eq. cbn zeta.
    rewrite Hcat, checkModelAccessStatus_eq, Hq, Hav. reflexivity. }
  cbn [catalogModels accessStatuses cliCommands].
  split; [exact H1|]. by rewrite H2.
Qed.

Lemma heuristic_gaps_follow_catalog_offline :
  exists r,
    discoverAvailableModels offline someCredentials None = Returned r
    /\ Forall2 (fun model s =>
                  ModelAccessStatus.modelId s
                  = BedrockModelInfo.modelId model
                  /\ ModelAccessStatus.hasAccess s
                     = negb (BedrockModelInfo.requiresAccess model))
               (catalogModels r) (accessStatuses r)
    /\ cliCommands r
       = generateAccessRequestCommands
           (map BedrockModelInfo.modelId
                (List.filter BedrockModelInfo.requiresAccess
                             (catalogModels r)))
           (Some "us-west-2").
Proof.
  exact (heuristic_gaps_follow_catalog offline someCredentials None
           "Failed to fetch" eq_refl).
Defined.

(** ** Command groups *)

Lemma filter_key_split (l : list string) p ks :
  p ∉ ks ->
  List.filter (fun m => bool_decide (beforeFirstDot m ∈ p :: ks)) l
  ≡ₚ List.filter (fun m => String.eqb (beforeFirstDot m) p) l
     ++ List.filter (fun m => bool_decide (beforeFirstDot m ∈ ks)) l.
Proof.
  intros Hp. induction l as [|m l IH]; [reflexivity|].
  cbn [List.filter].
  destruct (String.eqb_spec (beforeFirstDot m) p) as [E|Hne].
  - rewrite bool_decide_eq_true_2 by (rewrite E; by left).
    rewrite (bool_decide_eq_false_2 (beforeFirstDot m ∈ ks))
      by (by rewrite E).
    cbn [app]. by rewrite IH.
  - destruct (decide (beforeFirstDot m ∈ ks)) as [Hin|Hnin].
    + rewrite !bool_decide_eq_true_2; [|exact Hin|by right].
      rewrite IH. apply Permutation_middle.
    + rewrite !bool_decide_eq_false_2;
        [exact IH | exact Hnin | rewrite elem_of_cons; tauto].
Qed.

Lemma groups_by_keys (l : list string) ks :
  NoDup ks ->
  concat (map (fun p =>
                 List.filter (fun m => String.eqb (beforeFirstDot m) p) l)
              ks)
  ≡ₚ List.filter (fun m => bool_decide (beforeFirstDot m ∈ ks)) l.
Proof.
  induction 1 as [|p ks Hp _ IH]; cbn [map concat].
  - symmetry. rewrite filter_none; [reflexivity|].
    intros m _. apply bool_decide_eq_false_2, not_elem_of_nil.
  - rewrite IH. symmetry. by apply filter_key_split.
Qed.

Lemma filter_all {A} (p : A -> bool) l :
  (forall x, x ∈ l -> p x = true) -> List.filter p l = l.
Proof.
  induction l as [|a l IH]; intros H; [reflexivity|].
  cbn [List.filter]. rewrite (H a) by (by left). f_equal.
  apply IH. intros x Hx. apply H. by right.
Qed.

(** X10: grouping neither loses nor repeats an identifier: the groups,
    put end to end, are a permutation of the identifiers given; no group is
    empty; and every identifier sits in the group of its own namespace. *)
Theorem groupModelsByProvider_partition :
  forall modelIds,
    concat (map snd (groupModelsByProvider modelIds)) ≡ₚ modelIds
    /\ Forall (fun group =>
                 snd group <> []
                 /\ Forall (fun m => beforeFirstDot m = fst group)
                           (snd group))
              (groupModelsByProvider modelIds).
Proof.
  intros modelIds. rewrite groupModelsByProvider_spec. unfold groupsBySpec.
  split.
  - rewrite map_map. cbn [snd].
    rewrite groups_by_keys by apply distinctInOrder_NoDup.
    rewrite filter_all; [reflexivity|].
    intros m Hm. apply bool_decide_eq_true_2, distinctInOrder_elem.
    apply list_elem_of_fmap. by exists m.
  - apply Forall_forall. intros group Hg.
    apply list_elem_of_fmap in Hg as (p & -> & Hp). cbn [fst snd].
    apply distinctInOrder_elem, list_elem_of_fmap in Hp as (m & -> & Hm).
    split.
    + intros Hnil.
      assert (Hin : m ∈ List.filter
                (fun m' => String.eqb (beforeFirstDot m') (beforeFirstDot m))
                modelIds).
      { apply list_elem_of_In, filter_In. split.
        - by apply list_elem_of_In.
        - apply String.eqb_refl. }
      rewrite Hnil in Hin. by apply not_elem_of_nil in Hin.
    + apply Forall_forall. intros m' Hm'.
      apply list_elem_of_In, filter_In in Hm' as [_ Hm'].
      by apply String.eqb_eq.
Qed.

Lemma prefix_refl s : String.prefix s s = true.
Proof.
  induction s as [|c s IH]; [reflexivity|]. cbn.
  destruct (ascii_dec c c); [exact IH | contradiction].
Qed.

Lemma includes_refl s : Js.includes s s = true.
Proof. apply includes_prefix, prefix_refl. Qed.

Lemma join_fold_includes sep x l : forall acc,
  Js.includes acc x = true \/ x ∈ l ->
  Js.includes (fold_left (fun acc y => acc +:+ sep +:+ y) l acc) x = true.
Proof.
  induction l as [|y l IH]; intros acc [H|H]; cbn [fold_left].
  - exact H.
  - by apply not_elem_of_nil in H.
  - apply IH. left. by apply includes_app_right.
  - apply IH. apply elem_of_cons in H as [->|H]; [left|by right].
    apply includes_app_left, includes_app_left, includes_refl.
Qed.

Lemma join_includes sep x l :
  x ∈ l -> Js.includes (Js.join sep l) x = true.
Proof.
  destruct l as [|y l]; intros H; [by apply not_elem_of_nil in H|].
  cbn [Js.join]. apply join_fold_includes.
  apply elem_of_cons in H as [->|H]; [left; apply includes_refl | by right].
Qed.

(** X11: no identifier is left out of the commands: each one given
    stands, between double quotes, on a line of the commands, and the
    commands name the region given, or [us-west-2] when none is. *)
Theorem every_identifier_requested :
  forall modelIds region modelId,
    modelId ∈ modelIds ->
    (exists line,
        line ∈ generateAccessRequestCommands modelIds region
        /\ Js.includes line "--model-ids" = true
        /\ Js.includes line (dquote +:+ modelId +:+ dquote) = true)
    /\ ("  --region " +:+ default "us-west-2" region +:+ " \")
       ∈ generateAccessRequestCommands modelIds region.
Proof.
  intros modelIds region modelId Hin.
  set (p := beforeFirstDot modelId).
  set (models :=
         List.filter (fun m => String.eqb (beforeFirstDot m) p) modelIds).
  assert (Hg : (p, models) ∈ groupModelsByProvider modelIds).
  { rewrite groupModelsByProvider_spec. unfold groupsBySpec.
    apply list_elem_of_fmap. exists p. split; [reflexivity|].
    apply distinctInOrder_elem, list_elem_of_fmap. by exists modelId. }
  assert (Hm : modelId ∈ models).
  { apply list_elem_of_In, filter_In. split.
    - by apply list_elem_of_In.
    - apply String.eqb_refl. }
  assert (Hlines : forall line,
             line ∈ commandGroup (default "us-west-2" region) (p, models) ->
             line ∈ generateAccessRequestCommands modelIds region).
  { intros line Hline. unfold generateAccessRequestCommands.
    rewrite (fold_left_push_all _ _ []). cbn [app].
    apply list_elem_of_In, in_concat. eexists. split.
    - apply in_map, list_elem_of_In, Hg.
    - by apply list_elem_of_In. }
  split.
  - eexists. split; [|split].
    + apply Hlines. cbn [commandGroup]. do 3 right. left.
    + reflexivity.
    + apply includes_app_left, includes_app_right, join_includes.
      apply list_elem_of_fmap. by exists modelId.
  - apply Hlines. cbn [commandGroup]. do 2 right. left.
Qed.

Lemma every_identifier_requested_sample :
  (exists line,
      line ∈ generateAccessRequestCommands
               ["anthropic.claude-opus-4-20250514-v1:0";
                "us.anthropic.claude-sonnet-4-5-20250929-v1:0"] None
      /\ Js.includes line "--model-ids" = true
      /\ Js.includes line
           (dquote +:+ "us.anthropic.claude-sonnet-4-5-20250929-v1:0"
            +:+ dquote) = true)
  /\ ("  --region " +:+ "us-west-2" +:+ " \")
     ∈ generateAccessRequestCommands
         ["anthropic.claude-opus-4-20250514-v1:0";
          "us.anthropic.claude-sonnet-4-5-20250929-v1:0"] None.
Proof.
  refine (every_identifier_requested
            ["anthropic.claude-opus-4-20250514-v1:0";
             "us.anthropic.claude-sonnet-4-5-20250929-v1:0"] None
            "us.anthropic.claude-sonnet-4-5-20250929-v1:0" _).
  right. left.
Defined.

(** ** The fan-out, continued *)

Lemma truthy_Some o v : Js.truthy o = Some v <-> o = Some v /\ v <> EmptyString.
Proof.
  unfold Js.truthy. destruct o as [s|]; [|split; [discriminate|by intros []]].
  destruct (String.eqb_spec s EmptyString) as [->|Hne]; split.
  - discriminate.
  - intros [[= <-] H]. contradiction.
  - intros [= <-]. by split.
  - by intros [[= <-] _].
Qed.

(** X12: the query always starts with [byInferenceType], which is
    [ON_DEMAND] unless a non-empty inference type is given; each other
    filter is passed exactly when it is set and not empty, under its own
    key; no key occurs twice and no value is empty. *)
Theorem queryParams_shape :
  forall filters,
    head (queryParams filters)
    = Some ("byInferenceType",
            match f_inferenceType filters with
            | Some v => if String.eqb v EmptyString then "ON_DEMAND" else v
            | None => "ON_DEMAND"
            end)
    /\ NoDup (map fst (queryParams filters))
    /\ Forall (fun kv => snd kv <> EmptyString) (queryParams filters)
    /\ (forall v, ("byProvider", v) ∈ queryParams filters
                  <-> f_provider filters = Some v /\ v <> EmptyString)
    /\ (forall v, ("byOutputModality", v) ∈ queryParams filters
                  <-> f_outputModality filters = Some v /\ v <> EmptyString)
    /\ (forall v, ("byCustomizationType", v) ∈ queryParams filters
                  <-> f_customizationType filters = Some v
                      /\ v <> EmptyString).
Proof.
  intros [prov modality inference custom]. unfold queryParams.
  cbn [f_provider f_outputModality f_inferenceType f_customizationType].
  assert (Hinf : default "ON_DEMAND" (Js.truthy inference) <> EmptyString).
  { destruct inference as [v|]; cbn; [|discriminate].
    destruct (String.eqb_spec v EmptyString); cbn; [discriminate|done]. }
  split.
  { cbn. f_equal. f_equal. destruct inference as [v|]; cbn; [|reflexivity].
    by destruct (String.eqb v EmptyString). }
  setoid_rewrite <- truthy_Some.
  destruct (Js.truthy prov) as [vp|] eqn:Ep,
           (Js.truthy modality) as [vm|] eqn:Em,
           (Js.truthy custom) as [vc|] eqn:Ec;
    try apply truthy_Some in Ep as [_ Ep];
    try apply truthy_Some in Em as [_ Em];
    try apply truthy_Some in Ec as [_ Ec];
    cbn [app map fst];
    (split; [apply (bool_decide_unpack _); vm_compute; exact I|]);
    (split; [repeat first [ apply List.Forall_nil
                          | apply List.Forall_cons;
                            [cbn [snd]; assumption|] ]|]);
    repeat split; intros H;
      repeat match goal with
             | H : _ ∈ _ :: _ |- _ => apply elem_of_cons in H as [H|H]
             | H : _ ∈ [] |- _ => by apply not_elem_of_nil in H
             | H : (_, _) = (_, _) |- _ => injection H as ? ?; subst
             | H : Some _ = Some _ |- _ => injection H as ->
             end;
      try congruence; by repeat constructor.
Qed.

Lemma foundationIds_origin answer id models :
  foundationIds answer = Returned models ->
  id ∈ models ->
  exists response data model,
    answer = Returned response
    /\ ok response = true
    /\ json response = Returned data
    /\ model ∈ default [] (Foundation.modelSummaries data)
    /\ Foundation.modelId model = id
    /\ (exists modalities,
          Foundation.outputModalities model = Some modalities
          /\ "TEXT" ∈ modalities)
    /\ (exists lifecycle,
          Foundation.modelLifecycle model = Some lifecycle
          /\ Foundation.status lifecycle = "ACTIVE").
Proof.
  unfold foundationIds. destruct answer as [response|e]; [|discriminate].
  destruct (ok response) eqn:Hok.
  - destruct (json response) as [data|e] eqn:Hjson; [|discriminate].
    intros [= <-] Hid.
    apply list_elem_of_fmap in Hid as (model & -> & Hm).
    apply list_elem_of_In, filter_In in Hm as [Hm Hact].
    exists response, data, model.
    repeat split; try assumption; try (by apply list_elem_of_In).
    + unfold isActiveTextModel in Hact.
      destruct (Foundation.outputModalities model) as [modalities|];
        [|discriminate].
      exists modalities. split; [reflexivity|].
      apply andb_true_iff in Hact as [Hact _].
      by apply bool_decide_eq_true in Hact.
    + unfold isActiveTextModel in Hact.
      apply andb_true_iff in Hact as [_ Hact].
      destruct (Foundation.modelLifecycle model) as [lifecycle|];
        [|discriminate].
      exists lifecycle. split; [reflexivity|]. by apply String.eqb_eq.
  - intros [= <-] Hid. by apply not_elem_of_nil in Hid.
Qed.

Lemma profileIds_origin answer id profiles :
  profileIds answer = Returned profiles ->
  id ∈ profiles ->
  exists response data profile,
    answer = Returned response
    /\ ok response = true
    /\ json response = Returned data
    /\ profile ∈ default [] (Profile.inferenceProfileSummaries data)
    /\ Profile.inferenceProfileId profile = id
    /\ Profile.status profile = "ACTIVE".
Proof.
  unfold profileIds. destruct answer as [response|e]; [|discriminate].
  destruct (ok response) eqn:Hok.
  - destruct (json response) as [data|e] eqn:Hjson; [|discriminate].
    intros [= <-] Hid.
    apply list_elem_of_fmap in Hid as (profile & -> & Hp).
    apply list_elem_of_In, filter_In in Hp as [Hp Hact].
    exists response, data, profile.
    repeat split; try assumption; try (by apply list_elem_of_In).
    by apply String.eqb_eq.
  - intros [= <-] Hid. by apply not_elem_of_nil in Hid.
Qed.

(** X13: every identifier the availability query returns was reported, in
    a 2xx answer of that region, either as a foundation model whose output
    modalities include [TEXT] and whose lifecycle status is [ACTIVE], or as
    an inference profile whose status is [ACTIVE]; a model of any other
    status or modality is never listed. *)
Theorem available_models_are_active :
  forall net credentials region available id,
    fetchActuallyAvailableModels net credentials region = Returned available ->
    id ∈ available ->
    (exists response data model,
        getFoundationModels net credentials region [] = Returned response
        /\ ok response = true
        /\ json response = Returned data
        /\ model ∈ default [] (Foundation.modelSummaries data)
        /\ Foundation.modelId model = id
        /\ (exists modalities,
              Foundation.outputModalities model = Some modalities
              /\ "TEXT" ∈ modalities)
        /\ (exists lifecycle,
              Foundation.modelLifecycle model = Some lifecycle
              /\ Foundation.status lifecycle = "ACTIVE"))
    \/ (exists response data profile,
          getInferenceProfiles net credentials region = Returned response
          /\ ok response = true
          /\ json response = Returned data
          /\ profile ∈ default [] (Profile.inferenceProfileSummaries data)
          /\ Profile.inferenceProfileId profile = id
          /\ Profile.status profile = "ACTIVE").
Proof.
  intros net credentials region available id.
  rewrite fetchActuallyAvailableModels_eq. intros [= <-] Hid.
  rewrite sort_elem, setAddAll_elem, elem_of_nil, regionIds_elem in Hid.
  destruct Hid as [[]|(models & Hf & [Hid|(profiles & Hp & Hid)])].
  - left. by eapply foundationIds_origin.
  - right. by eapply profileIds_origin.
Qed.

Lemma available_models_are_active_sample :
  (exists response data model,
      getFoundationModels twoRegions someCredentials "us-west-2" []
      = Returned response
      /\ ok response = true
      /\ json response = Returned data
      /\ model ∈ default [] (Foundation.modelSummaries data)
      /\ Foundation.modelId model = "amazon.titan-text-express-v1"
      /\ (exists modalities,
            Foundation.outputModalities model = Some modalities
            /\ "TEXT" ∈ modalities)
      /\ (exists lifecycle,
            Foundation.modelLifecycle model = Some lifecycle
            /\ Foundation.status lifecycle = "ACTIVE"))
  \/ (exists response data profile,
        getInferenceProfiles twoRegions someCredentials "us-west-2"
        = Returned response
        /\ ok response = true
        /\ json response = Returned data
        /\ profile ∈ default [] (Profile.inferenceProfileSummaries data)
        /\ Profile.inferenceProfileId profile
           = "amazon.titan-text-express-v1"
        /\ Profile.status profile = "ACTIVE").
Proof.
  refine (available_models_are_active twoRegions someCredentials "us-west-2"
            ["amazon.titan-text-express-v1"; "meta.llama3-70b-instruct-v1:0";
             "us.meta.llama3-70b-instruct-v1:0"]
            "amazon.titan-text-express-v1" _ _).
  - vm_compute. reflexivity.
  - left.
Defined.

(** ** The model list of the settings page *)

Lemma fetchBedrockModels_eq net credentials selectedRegion filters :
  fetchBedrockModels net credentials selectedRegion filters
  = let selected := default "multi-region" selectedRegion in
    match run (queryRegions net credentials (default noFilters filters)
                 (regionsOf selected)) [] with
    | Returned (id :: ids) => Returned (id :: ids)
    | _ =>
        match discoverAvailableModels net credentials
                (Some (primaryRegionOf selected)) with
        | Returned d =>
            let answer :=
              if 0 <? length (availableModels d) then availableModels d
              else map BedrockModelInfo.modelId (catalogModels d) in
            if 0 <? length (cliCommands d) then
              match storageSet net (cliCommands d)
                      (map ModelAccessStatus.modelId
                           (List.filter
                              (fun s => negb (ModelAccessStatus.hasAccess s))
                              (accessStatuses d))) with
              | Returned _ => Returned answer
              | Thrown _ => Returned staticFallbackModels
              end
            else Returned answer
        | Thrown _ => Returned staticFallbackModels
        end
    end.
Proof.
  cbn zeta. rewrite queryRegions_eq.
  unfold fetchBedrockModels, run, queryRegions. cbn zeta.
  unfold bind at 1 2. rewrite forEach_regions.
  unfold bind at 1, get, ret. cbn [fst snd].
  destruct (Js.sort _) as [|id ids]; [|reflexivity].
  change (0 <? length (@nil string)) with false. lazy beta iota.
  unfold tryCatch, bind, await, skip, ret, primaryRegionOf.
  destruct (discoverAvailableModels _ _ _) as [d|e]; [|reflexivity].
  destruct (0 <? length (cliCommands d)); [|reflexivity].
  destruct (storageSet _ _ _); reflexivity.
Qed.

Lemma discoverAvailableModels_returns net credentials region :
  exists d,
    discoverAvailableModels net credentials region = Returned d
    /\ fetchLatestModelCatalog net = Returned (catalogModels d).
Proof.
  destruct (fetchLatestModelCatalog_total net) as [catalog Hcat].
  destruct (checkModelAccessStatus_total net credentials
              (default "us-west-2" region)
              (map BedrockModelInfo.modelId catalog)) as [statuses Hst].
  destruct (fetchActuallyAvailableModels_total net credentials
              (default "us-west-2" region)) as [available Hav].
  eexists. split.
  - rewrite discoverAvailableModels_eq. cbn zeta.
    rewrite Hcat, Hst, Hav. reflexivity.
  - exact Hcat.
Qed.


(** X15: with the documentation out of reach the model list is never
    empty: it is what the fan-out or discovery found, or else the catalog
    identifiers of the static fallback, or the static list. *)
Theorem fetchBedrockModels_nonempty_without_docs :
  forall net credentials selectedRegion filters e,
    fetchDocumentation net = Thrown e ->
    exists ids,
      fetchBedrockModels net credentials selectedRegion filters = Returned ids
      /\ ids <> [].
Proof.
  intros net credentials selectedRegion filters e Hdoc.
  destruct (discoverAvailableModels_returns net credentials
              (Some (primaryRegionOf (default "multi-region" selectedRegion))))
    as (d & Hd & Hcat).
  rewrite (fetch_failure_gives_fallback net e Hdoc) in Hcat.
  injection Hcat as Hcat.
  rewrite fetchBedrockModels_eq. cbn zeta. rewrite Hd.
  destruct (run _ _) as [[|id ids]|e'].
  3: { assert (Hans : (if 0 <? length (availableModels d)
                       then availableModels d
                       else map BedrockModelInfo.modelId (catalogModels d))
                      <> []).
       { destruct (availableModels d); [|done]. by rewrite <- Hcat. }
       destruct (0 <? length (cliCommands d));
         [destruct (storageSet _ _ _)|]; eexists; split;
         try reflexivity; done. }
  2: { by eexists. }
  assert (Hans : (if 0 <? length (availableModels d)
                  then availableModels d
                  else map BedrockModelInfo.modelId (catalogModels d))
                 <> []).
  { destruct (availableModels d); [|done]. by rewrite <- Hcat. }
  destruct (0 <? length (cliCommands d));
    [destruct (storageSet _ _ _)|]; eexists; split;
    try reflexivity; done.
Qed.

Lemma fetchBedrockModels_nonempty_offline :
  exists ids,
    fetchBedrockModels offline someCredentials None None = Returned ids
    /\ ids <> [].
Proof.
  exact (fetchBedrockModels_nonempty_without_docs offline someCredentials
           None None "Failed to fetch" eq_refl).
Defined.

(** ** Provisioning files *)

Lemma generateAccessRequestCommands_nil modelIds region :
  generateAccessRequestCommands modelIds region = [] <-> modelIds = [].
Proof.
  split; [|by intros ->].
  unfold generateAccessRequestCommands.
  rewrite (fold_left_push_all _ _ []). cbn [app]. intros H.
  pose proof (concat_commandGroup_length (default "us-west-2" region)
                (groupModelsByProvider modelIds)) as Hlen.
  rewrite H in Hlen. cbn [length] in Hlen.
  assert (Hk : length (map fst (groupModelsByProvider modelIds)) = 0)
    by (rewrite length_map; lia).
  rewrite groupModelsByProvider_spec, groupsBySpec_keys in Hk.
  destruct modelIds; [reflexivity | discriminate Hk].
Qed.

(** X16: generating the provisioning files never raises.  The generator
    is called exactly when the discovery of that region has commands, with
    the identifiers those commands were generated for, the region
    ([us-west-2] when none is given) and the fixed reason; its files are
    returned as they are, and no file is returned when there is no gap or
    when the generator throws. *)
Theorem generateBedrockProvisioningFiles_total :
  forall net createProvisioningFiles credentials region,
  exists files d,
    generateBedrockProvisioningFiles net createProvisioningFiles credentials
      region
    = Returned files
    /\ discoverAvailableModels net credentials
         (Some (default "us-west-2" region))
       = Returned d
    /\ (cliCommands d = [] -> files = [])
    /\ (cliCommands d <> [] ->
        files
        = match createProvisioningFiles
                  (map ModelAccessStatus.modelId
                       (List.filter needsAccess (accessStatuses d)))
                  {| po_region := default "us-west-2" region;
                     po_reason :=
                       "Automated access request for Nanobrowser AI extension"
                  |} with
          | Returned made => made
          | Thrown _ => []
          end)
    /\ cliCommands d
       = generateAccessRequestCommands
           (map ModelAccessStatus.modelId
                (List.filter needsAccess (accessStatuses d)))
           (Some (default "us-west-2" region)).
Proof.
  intros net createProvisioningFiles credentials region.
  destruct (discoverAvailableModels_returns net credentials
              (Some (default "us-west-2" region))) as (d & Hd & _).
  assert (Hcmd : cliCommands d
                 = generateAccessRequestCommands
                     (map ModelAccessStatus.modelId
                          (List.filter needsAccess (accessStatuses d)))
                     (Some (default "us-west-2" region))).
  { rewrite discoverAvailableModels_eq in Hd. cbn zeta in Hd.
    destruct (fetchLatestModelCatalog net); [|discriminate].
    destruct (checkModelAccessStatus _ _ _ _); [|discriminate].
    destruct (fetchActuallyAvailableModels _ _ _); [|discriminate].
    by injection Hd as <-. }
  unfold generateBedrockProvisioningFiles, run, tryCatch, bind, await, ret.
  cbn zeta. rewrite Hd.
  destruct (map ModelAccessStatus.modelId
              (List.filter needsAccess (accessStatuses d)))
    as [|gap gaps] eqn:Hgaps.
  - exists [], d. rewrite Hgaps.
    split; [reflexivity|]. split; [reflexivity|]. split; [done|].
    split; [|exact Hcmd]. intros Hne. by rewrite Hcmd in Hne.
  - cbn [length Nat.eqb].
    assert (Hne : cliCommands d <> []).
    { rewrite Hcmd. intros H.
      by apply generateAccessRequestCommands_nil in H. }
    destruct (createProvisioningFiles (gap :: gaps) _) as [made|e] eqn:Hmade;
      eexists _, d; rewrite Hgaps, Hmade;
      (split; [reflexivity|]); (split; [reflexivity|]);
      (split; [done|]); (split; [done|]); exact Hcmd.
Qed.

(** ** Model names *)

Lemma substringFrom_app p s :
  substringFrom (String.length p) (p +:+ s) = s.
Proof.
  induction p as [|c p IH]; [by destruct s|].
  change (String c p +:+ s) with (String c (p +:+ s)). exact IH.
Qed.

Lemma startsWith_app p s : startsWith (p +:+ s) p = true.
Proof.
  unfold startsWith. apply (prefix_app_r p p s), prefix_refl.
Qed.

Lemma startsWith_cancel p m q :
  startsWith (p +:+ m) (p +:+ q) = startsWith m q.
Proof.
  unfold startsWith. induction p as [|c p IH]; [reflexivity|].
  change (String c p +:+ m) with (String c (p +:+ m)).
  change (String c p +:+ q) with (String c (p +:+ q)).
  cbn [String.prefix]. by destruct (ascii_dec c c).
Qed.

Lemma isOpenAIReasoningModel_plain m :
  startsWith m "openai/" = false ->
  isOpenAIReasoningModel m
  = startsWith m "o"
    || (startsWith m "gpt-5" && negb (startsWith m "gpt-5-chat")).
Proof. intros H. unfold isOpenAIReasoningModel. by rewrite H. Qed.

Lemma isOpenAIReasoningModel_prefixed m :
  isOpenAIReasoningModel ("openai/" +:+ m)
  = startsWith m "o"
    || (startsWith m "gpt-5" && negb (startsWith m "gpt-5-chat")).
Proof.
  unfold isOpenAIReasoningModel. rewrite (startsWith_app "openai/" m).
  pose proof (substringFrom_app "openai/" m) as E.
  cbn [String.length] in E. by rewrite E.
Qed.

(** X17: the provider prefix [openai/] is taken off once and then makes no
    difference; a [gpt-5-chat] model is never a reasoning model, with or
    without the prefix, and any other [gpt-5] model is one. *)
Theorem isOpenAIReasoningModel_prefix :
  forall m,
    (startsWith m "openai/" = false ->
     isOpenAIReasoningModel ("openai/" +:+ m) = isOpenAIReasoningModel m)
    /\ isOpenAIReasoningModel ("gpt-5-chat" +:+ m) = false
    /\ isOpenAIReasoningModel ("openai/gpt-5-chat" +:+ m) = false
    /\ (startsWith m "-chat" = false ->
        isOpenAIReasoningModel ("gpt-5" +:+ m) = true
        /\ isOpenAIReasoningModel ("openai/gpt-5" +:+ m) = true).
Proof.
  intros m.
  assert (Hchat : startsWith ("gpt-5-chat" +:+ m) "gpt-5-chat" = true)
    by apply startsWith_app.
  assert (H5 : startsWith ("gpt-5" +:+ m) "gpt-5-chat"
               = startsWith m "-chat")
    by apply (startsWith_cancel "gpt-5" m "-chat").
  split; [|split; [|split]].
  - intros Hm.
    by rewrite isOpenAIReasoningModel_prefixed,
               isOpenAIReasoningModel_plain.
  - rewrite isOpenAIReasoningModel_plain by reflexivity.
    rewrite Hchat. reflexivity.
  - change ("openai/gpt-5-chat" +:+ m)
      with ("openai/" +:+ ("gpt-5-chat" +:+ m)).
    rewrite isOpenAIReasoningModel_prefixed, Hchat. reflexivity.
  - intros Hm. split.
    + rewrite isOpenAIReasoningModel_plain by reflexivity.
      rewrite H5, Hm, (startsWith_app "gpt-5" m). reflexivity.
    + change ("openai/gpt-5" +:+ m) with ("openai/" +:+ ("gpt-5" +:+ m)).
      rewrite isOpenAIReasoningModel_prefixed.
      rewrite H5, Hm, (startsWith_app "gpt-5" m). reflexivity.
Qed.

(** ** Azure endpoints *)

Lemma string_app_assoc (a b c : string) : (a +:+ b) +:+ c = a +:+ (b +:+ c).
Proof.
  induction a as [|x a IH]; [reflexivity|].
  change (String x a +:+ b) with (String x (a +:+ b)).
  change (String x (a +:+ b) +:+ c) with (String x ((a +:+ b) +:+ c)).
  change (String x a +:+ (b +:+ c)) with (String x (a +:+ (b +:+ c))).
  by rewrite IH.
Qed.

(** The first piece of a split has no separator in it and is followed, in
    the string, by the separator and what the other pieces come from. *)
Lemma splitChar_first sep : forall s a b rest,
  Js.splitChar sep s = a :: b :: rest ->
  exists s',
    s = a +:+ String sep s'
    /\ Js.splitChar sep s' = b :: rest
    /\ Js.includes a (String sep EmptyString) = false.
Proof.
  induction s as [|c s IH]; intros a b rest H; [discriminate|].
  cbn [Js.splitChar] in H. destruct (Ascii.eqb_spec c sep) as [->|Hne].
  - injection H as <- H. exists s. by repeat split.
  - destruct (Js.splitChar sep s) as [|piece pieces] eqn:E; [discriminate|].
    injection H as <- ->.
    destruct (IH piece b rest eq_refl) as (s' & -> & Hs' & Hno).
    exists s'. split; [reflexivity|]. split; [exact Hs'|].
    cbn [Js.includes String.prefix]. rewrite Hno.
    destruct (ascii_dec sep c) as [->|_]; [contradiction|]. reflexivity.
Qed.

Section ChatModelProperties.

Context (number : Type) (tenth : number) (providerType : ProviderTypeEnum)
        (urlHostname : string -> outcome string)
        (invokeModel : Credentials -> string -> string -> RequestBody number
                       -> outcome InvokeResponse).

Lemma extractInstanceNameFromUrl_Some url name :
  extractInstanceNameFromUrl urlHostname url = Some name ->
  exists hostname,
    urlHostname url = Returned hostname
    /\ startsWith hostname (name +:+ ".openai.azure.") = true
    /\ Js.includes name "." = false.
Proof.
  unfold extractInstanceNameFromUrl, run, tryCatch, bind, await, ret.
  destruct (urlHostname url) as [hostname|e]; [|discriminate].
  cbn [fst].
  destruct (Js.splitChar "." hostname) as [|l0 [|l1 [|l2 [|l3 more]]]] eqn:E;
    try discriminate.
  cbn [length Nat.leb andb lookup list_lookup].
  destruct (bool_decide (Some l1 = Some "openai")) eqn:H1; [|discriminate].
  destruct (bool_decide (Some l2 = Some "azure")) eqn:H2; [|discriminate].
  apply bool_decide_eq_true in H1 as [= ->].
  apply bool_decide_eq_true in H2 as [= ->].
  cbn [andb fst]. intros [= ->].
  destruct (splitChar_first _ _ _ _ _ E) as (s1 & -> & E1 & Hno).
  destruct (splitChar_first _ _ _ _ _ E1) as (s2 & -> & E2 & _).
  destruct (splitChar_first _ _ _ _ _ E2) as (s3 & -> & _ & _).
  eexists. split; [reflexivity|]. split; [|exact Hno].
  change (name +:+ String "." ("openai" +:+ String "." ("azure" +:+ String "." s3)))
    with (name +:+ (".openai.azure." +:+ s3)).
  rewrite <- string_app_assoc. apply startsWith_app.
Qed.

(** X18: the instance name of an Azure endpoint, when one is found, has
    no dot in it and is what the host name of the URL has before
    [.openai.azure.]; a URL that does not parse, or a host of any other
    form, gives none, and nothing is raised. *)
Theorem extractInstanceNameFromUrl_sound :
  forall url,
    (forall name,
        extractInstanceNameFromUrl urlHostname url = Some name ->
        exists hostname,
          urlHostname url = Returned hostname
          /\ startsWith hostname (name +:+ ".openai.azure.") = true
          /\ Js.includes name "." = false)
    /\ (forall e,
          urlHostname url = Thrown e ->
          extractInstanceNameFromUrl urlHostname url = None)
    /\ (forall hostname,
          urlHostname url = Returned hostname ->
          Js.includes hostname ".openai.azure." = false ->
          extractInstanceNameFromUrl urlHostname url = None).
Proof.
  intros url. split; [|split].
  - intros name. apply extractInstanceNameFromUrl_Some.
  - intros e He. unfold extractInstanceNameFromUrl.
    unfold run, tryCatch, bind, await, ret. by rewrite He.
  - intros hostname Hh Hno.
    destruct (extractInstanceNameFromUrl urlHostname url) as [name|] eqn:E;
      [|reflexivity].
    apply extractInstanceNameFromUrl_Some in E
      as (hostname' & Hh' & Hstart & _).
    rewrite Hh in Hh'. injection Hh' as <-.
    assert (Hin : Js.includes hostname ".openai.azure." = true).
    { unfold startsWith in Hstart.
      by apply (prefix_app_includes name ".openai.azure." hostname). }
    by rewrite Hin in Hno.
Qed.

(** ** The constructor calls *)

(** X19: the OpenAI-compatible call takes one of two parameter styles and
    never mixes them: for a reasoning model [modelKwargs] with
    [max_completion_tokens] 4096, and with the reasoning effort only when
    one is set, and none of [topP], [temperature] and [maxTokens]; for any
    other model those three, 0.1 standing in for an unset parameter, and no
    [modelKwargs]. *)
Theorem createOpenAIChatModel_styles :
  forall providerConfig modelConfig extraFetchOptions,
  exists args,
    createOpenAIChatModel number tenth providerConfig modelConfig
      extraFetchOptions
    = ChatOpenAI number args
    /\ a_model number args = mc_modelName number modelConfig
    /\ a_apiKey number args = pc_apiKey providerConfig
    /\ (isOpenAIReasoningModel (mc_modelName number modelConfig) = true ->
        a_modelKwargs number args
        = Some {| max_completion_tokens := 4096;
                  reasoning_effort :=
                    Js.truthy (mc_reasoningEffort number modelConfig) |}
        /\ a_topP number args = None
        /\ a_temperature number args = None
        /\ a_maxTokens number args = None)
    /\ (isOpenAIReasoningModel (mc_modelName number modelConfig) = false ->
        a_modelKwargs number args = None
        /\ a_topP number args = Some (topPOf number tenth modelConfig)
        /\ a_temperature number args
           = Some (temperatureOf number tenth modelConfig)
        /\ a_maxTokens number args = Some 4096).
Proof.
  intros providerConfig modelConfig extraFetchOptions.
  unfold createOpenAIChatModel.
  destruct (isOpenAIReasoningModel (mc_modelName number modelConfig));
    eexists; (split; [reflexivity|]); cbn; by repeat split.
Qed.

Ltac split_branches H :=
  repeat match type of H with
         | (if String.eqb ?a ?b then _ else _) = _ =>
             destruct (String.eqb_spec a b)
         | (if ?b then _ else _) = _ => destruct b
         | Returned (if ?b then _ else _) = _ => destruct b
         | match ?o with _ => _ end = _ => destruct o
         end.

Lemma createAzureChatModel_Returned providerConfig modelConfig model :
  createAzureChatModel number tenth urlHostname providerConfig modelConfig
  = Returned model ->
  exists args baseUrl,
    model = AzureChatOpenAI number args
    /\ pc_baseUrl providerConfig = Some baseUrl
    /\ extractInstanceNameFromUrl urlHostname baseUrl
       = Some (azureOpenAIApiInstanceName number args)
    /\ azureOpenAIApiInstanceName number args <> EmptyString
    /\ azureOpenAIApiDeploymentName number args
       = mc_modelName number modelConfig
    /\ az_model number args = mc_modelName number modelConfig
    /\ pc_apiKey providerConfig = Some (azureOpenAIApiKey number args)
    /\ azureOpenAIApiKey number args <> EmptyString
    /\ pc_azureApiVersion providerConfig
       = Some (azureOpenAIApiVersion number args)
    /\ pc_azureDeploymentNames providerConfig <> None
    /\ pc_azureDeploymentNames providerConfig <> Some [].
Proof.
  unfold createAzureChatModel. cbn zeta.
  destruct (Js.truthy (pc_baseUrl providerConfig)) as [baseUrl|] eqn:Hb;
    [|discriminate].
  destruct (pc_azureDeploymentNames providerConfig) as [[|d ds]|];
    try discriminate.
  destruct (Js.truthy (pc_azureApiVersion providerConfig)) as [v|] eqn:Hv;
    [|discriminate].
  destruct (Js.truthy (pc_apiKey providerConfig)) as [k|] eqn:Hk;
    [|discriminate].
  destruct (Js.truthy (extractInstanceNameFromUrl urlHostname baseUrl))
    as [name|] eqn:Hn; [|discriminate].
  apply truthy_Some in Hb as [Hb _], Hv as [Hv _], Hk as [Hk Hk'],
    Hn as [Hn Hn'].
  intros [= <-]. eexists _, baseUrl. cbn. by repeat split.
Qed.

(** X20: an Azure model is constructed only from a complete
    configuration: an endpoint whose host name is the instance name
    followed by [.openai.azure.], at least one deployment name, an API
    version and an API key, none of them empty.  The deployment and the
    model are both the model name selected, whether or not it is among the
    configured deployments. *)
Theorem azure_model_needs_complete_configuration :
  forall providerConfig modelConfig args,
    createChatModel number tenth providerType urlHostname providerConfig
      modelConfig
    = Returned (AzureChatOpenAI number args) ->
    isAzureProvider providerType (mc_provider number modelConfig) = true
    /\ (exists baseUrl hostname,
          pc_baseUrl providerConfig = Some baseUrl
          /\ urlHostname baseUrl = Returned hostname
          /\ startsWith hostname
               (azureOpenAIApiInstanceName number args +:+ ".openai.azure.")
             = true)
    /\ azureOpenAIApiInstanceName number args <> EmptyString
    /\ azureOpenAIApiDeploymentName number args
       = mc_modelName number modelConfig
    /\ az_model number args = mc_modelName number modelConfig
    /\ pc_apiKey providerConfig = Some (azureOpenAIApiKey number args)
    /\ azureOpenAIApiKey number args <> EmptyString
    /\ pc_azureApiVersion providerConfig
       = Some (azureOpenAIApiVersion number args)
    /\ (exists name names,
          pc_azureDeploymentNames providerConfig = Some (name :: names)).
Proof.
  intros providerConfig modelConfig args H.
  unfold createChatModel in H. cbn zeta in H.
  destruct (isAzureProvider providerType (mc_provider number modelConfig))
    eqn:Haz.
  - apply createAzureChatModel_Returned in H
      as (args' & baseUrl & [= <-] & Hb & Hn & Hn' & Hd & Hm & Hk & Hk'
          & Hv & Hd1 & Hd2).
    apply extractInstanceNameFromUrl_Some in Hn as (hostname & Hh & Hs & _).
    split; [reflexivity|]. split; [by exists baseUrl, hostname|].
    repeat (split; [assumption|]).
    destruct (pc_azureDeploymentNames providerConfig) as [[|d ds]|];
      try contradiction; by eexists _, _.
  - unfold createOpenAIChatModel in H. split_branches H; discriminate H.
Qed.

(** X21: an Anthropic model is constructed for the Anthropic provider
    only, with the model's temperature and 4096 tokens; it gets [topP]
    unless it is an Opus model, which never gets one. *)
Theorem anthropic_opus_gets_no_topP :
  forall providerConfig modelConfig args,
    createChatModel number tenth providerType urlHostname providerConfig
      modelConfig
    = Returned (ChatAnthropic number args) ->
    mc_provider number modelConfig = Anthropic providerType
    /\ a_model number args = mc_modelName number modelConfig
    /\ a_temperature number args
       = Some (temperatureOf number tenth modelConfig)
    /\ a_maxTokens number args = Some 4096
    /\ (isAnthropicOpusModel (mc_modelName number modelConfig) = true ->
        a_topP number args = None)
    /\ (isAnthropicOpusModel (mc_modelName number modelConfig) = false ->
        a_topP number args = Some (topPOf number tenth modelConfig)).
Proof.
  intros providerConfig modelConfig args H.
  unfold createChatModel in H. cbn zeta in H.
  destruct (isAzureProvider providerType (mc_provider number modelConfig)).
  { unfold createAzureChatModel in H. cbn zeta in H.
    repeat match type of H with
           | match ?o with _ => _ end = _ => destruct o
           end; discriminate H. }
  unfold createOpenAIChatModel in H.
  destruct (String.eqb_spec (mc_provider number modelConfig)
              (OpenAI providerType));
    [destruct (isOpenAIReasoningModel _); discriminate H|].
  destruct (String.eqb_spec (mc_provider number modelConfig)
              (Anthropic providerType)) as [Hp|_].
  - injection H as <-. cbn.
    split; [exact Hp|]. do 3 (split; [reflexivity|]).
    by split; intros ->.
  - split_branches H; discriminate H.
Qed.

Lemma bedrockRegionOf_eq modelName :
  bedrockRegionOf modelName
  = (if startsWith modelName "eu." then "eu-west-1"
     else if startsWith modelName "global." then "us-east-1"
          else "us-west-2").
Proof.
  unfold bedrockRegionOf.
  destruct (startsWith modelName "us.") eqn:Hus; [|reflexivity].
  destruct modelName as [|c m]; [discriminate|].
  unfold startsWith in *. cbn [String.prefix] in Hus |- *.
  destruct (ascii_dec "u" c) as [<-|]; [|discriminate]. reflexivity.
Qed.

(** X22: a Bedrock model is constructed for the Bedrock provider only,
    from a key and a secret that are both set and not empty: the API key
    field is the access key id and the base URL field the secret.  Its
    region follows the prefix of the model name: [eu-west-1] for [eu.],
    [us-east-1] for [global.], and [us-west-2] for [us.] and for every
    other name. *)
Theorem bedrock_model_credentials_and_region :
  forall providerConfig modelConfig args,
    createChatModel number tenth providerType urlHostname providerConfig
      modelConfig
    = Returned (ChatBedrock number args) ->
    mc_provider number modelConfig = Bedrock providerType
    /\ pc_apiKey providerConfig
       = Some (accessKeyId (b_credentials number args))
    /\ accessKeyId (b_credentials number args) <> EmptyString
    /\ pc_baseUrl providerConfig
       = Some (secretAccessKey (b_credentials number args))
    /\ secretAccessKey (b_credentials number args) <> EmptyString
    /\ b_model number args = mc_modelName number modelConfig
    /\ b_maxTokens number args = 4096
    /\ b_region number args
       = (if startsWith (b_model number args) "eu." then "eu-west-1"
          else if startsWith (b_model number args) "global."
               then "us-east-1"
               else "us-west-2").
Proof.
  intros providerConfig modelConfig args H.
  unfold createChatModel in H. cbn zeta in H.
  destruct (isAzureProvider providerType (mc_provider number modelConfig)).
  { unfold createAzureChatModel in H. cbn zeta in H.
    repeat match type of H with
           | match ?o with _ => _ end = _ => destruct o
           end; discriminate H. }
  unfold createOpenAIChatModel in H.
  repeat match type of H with
         | (if String.eqb ?a ?b then _ else _) = _ =>
             destruct (String.eqb_spec a b)
         | Returned (if ?b then _ else _) = _ => destruct b
         end; try discriminate H.
  destruct (Js.truthy (pc_apiKey providerConfig)) as [k|] eqn:Hk;
    [|discriminate].
  destruct (Js.truthy (pc_baseUrl providerConfig)) as [b|] eqn:Hb;
    [|discriminate].
  apply truthy_Some in Hk as [Hk Hk'], Hb as [Hb Hb'].
  injection H as <-. cbn.
  repeat (split; [assumption || reflexivity|]).
  apply bedrockRegionOf_eq.
Qed.

(** X23: the attribution headers go to OpenRouter only: an
    OpenAI-compatible call has default headers exactly when the provider is
    OpenRouter and is none of the providers tried before it, and they are
    then the referer and the title of the extension. *)
Theorem attribution_headers_only_for_openrouter :
  forall providerConfig modelConfig args headers,
    createChatModel number tenth providerType urlHostname providerConfig
      modelConfig
    = Returned (ChatOpenAI number args) ->
    a_configuration number args
    = Some {| baseURL := Js.truthy (pc_baseUrl providerConfig);
              defaultHeaders := Some headers |} ->
    mc_provider number modelConfig = OpenRouter providerType
    /\ mc_provider number modelConfig <> OpenAI providerType
    /\ headers = [("HTTP-Referer", "https://nanobrowser.ai");
                  ("X-Title", "Nanobrowser")].
Proof.
  intros providerConfig modelConfig args headers H Hc.
  unfold createChatModel in H. cbn zeta in H.
  destruct (isAzureProvider providerType (mc_provider number modelConfig)).
  { unfold createAzureChatModel in H. cbn zeta in H.
    repeat match type of H with
           | match ?o with _ => _ end = _ => destruct o
           end; discriminate H. }
  unfold createOpenAIChatModel in H.
  split_branches H; try discriminate H;
    injection H as <-; cbn in Hc; try discriminate Hc;
    injection Hc as <-; by repeat split.
Qed.

(** ** Calls to the Bedrock runtime *)

Lemma generate_eq this msgs :
  generate number invokeModel this msgs
  = match invokeModel (b_credentials number this) (b_region number this)
            (invokeUrlOf this) (requestOf this msgs) with
    | Returned response =>
        if iv_ok response then
          match iv_json response with
          | Returned result =>
              Returned [{| g_text := contentOf result;
                           g_message := contentOf result |}]
          | Thrown e => Thrown (wrapBedrockError e)
          end
        else
          Thrown
            (wrapBedrockError
               ("Bedrock API error: " +:+ showNat (iv_status response)
                +:+ " " +:+ iv_statusText response))
    | Thrown e => Thrown (wrapBedrockError e)
    end.
Proof.
  unfold generate, run, tryCatch, bind, await, throw, skip, ret.
  fold (requestOf this msgs). fold (invokeUrlOf this).
  destruct (invokeModel _ _ _ _) as [response|e]; [|reflexivity].
  destruct (iv_ok response); cbn [negb fst]; [|reflexivity].
  destruct (iv_json response); reflexivity.
Qed.

(** X24: a call either returns exactly one generation, whose text and
    message are the text of the first content block of a 2xx answer (empty
    when there is none), or throws an error whose message starts with
    [Failed to call Bedrock API: ]; for an answer that is not 2xx the
    message goes on with the status and the status text. *)
Theorem generate_outcomes :
  forall this msgs,
    (forall e,
        generate number invokeModel this msgs = Thrown e ->
        startsWith e "Failed to call Bedrock API: " = true)
    /\ (forall generations,
          generate number invokeModel this msgs = Returned generations ->
          exists response result,
            invokeModel (b_credentials number this) (b_region number this)
              (invokeUrlOf this) (requestOf this msgs)
            = Returned response
            /\ iv_ok response = true
            /\ iv_json response = Returned result
            /\ generations
               = [{| g_text := contentOf result;
                     g_message := contentOf result |}])
    /\ (forall response,
          invokeModel (b_credentials number this) (b_region number this)
            (invokeUrlOf this) (requestOf this msgs)
          = Returned response ->
          iv_ok response = false ->
          generate number invokeModel this msgs
          = Thrown ("Failed to call Bedrock API: Bedrock API error: "
                    +:+ showNat (iv_status response) +:+ " "
                    +:+ iv_statusText response)).
Proof.
  intros this msgs. rewrite generate_eq. split; [|split].
  - intros e H.
    assert (Hw : forall e', startsWith (wrapBedrockError e')
                              "Failed to call Bedrock API: " = true).
    { intros e'. apply startsWith_app. }
    destruct (invokeModel _ _ _ _) as [response|e'].
    + destruct (iv_ok response); [destruct (iv_json response)|];
        try discriminate H; injection H as <-; apply Hw.
    + injection H as <-. apply Hw.
  - intros generations H.
    destruct (invokeModel _ _ _ _) as [response|e']; [|discriminate].
    destruct (iv_ok response) eqn:Hok; [|discriminate].
    destruct (iv_json response) as [result|e'] eqn:Hj; [|discriminate].
    injection H as <-. by exists response, result.
  - intros response -> ->. reflexivity.
Qed.

(** X25: one request is sent per call, to the [invoke] URL of the model in
    the region of the model, and nothing but its answer decides the
    outcome.  The request carries one message per message given, in order
    and with its text as a single text block; a [human] message goes as
    [user] and every other message, a system message included, as
    [assistant]. *)
Theorem generate_request :
  forall this msgs,
    (forall otherInvoke,
        otherInvoke (b_credentials number this) (b_region number this)
          (invokeUrlOf this) (requestOf this msgs)
        = invokeModel (b_credentials number this) (b_region number this)
            (invokeUrlOf this) (requestOf this msgs) ->
        generate number otherInvoke this msgs
        = generate number invokeModel this msgs)
    /\ Forall2 (fun msg sent =>
                  (bm_role sent = "user" <-> msg_type msg = "human")
                  /\ (bm_role sent = "assistant" <-> msg_type msg <> "human")
                  /\ bm_content sent
                     = [{| cb_type := "text"; cb_text := msg_content msg |}])
               msgs (messages number (requestOf this msgs))
    /\ max_tokens number (requestOf this msgs) = b_maxTokens number this
    /\ anthropic_version number (requestOf this msgs) = "bedrock-2023-05-31".
Proof.
  intros this msgs. split; [|split; [|by split]].
  - intros otherInvoke H.
    rewrite generate_eq.
    unfold generate, run, tryCatch, bind, await, throw, skip, ret.
    fold (requestOf this msgs). fold (invokeUrlOf this). rewrite H.
    destruct (invokeModel _ _ _ _) as [response|e]; [|reflexivity].
    destruct (iv_ok response); cbn [negb fst]; [|reflexivity].
    destruct (iv_json response); reflexivity.
  - cbn [requestOf messages].
    induction msgs as [|msg msgs IH]; cbn [map]; constructor; [|exact IH].
    cbn [bm_role bm_content].
    destruct (String.eqb_spec (msg_type msg) "human") as [->|Hne];
      repeat split; try done.
Qed.

End ChatModelProperties.

(** ** The constructor calls on sample configurations *)

Lemma azure_model_sample :
  isAzureProvider sampleProviderTypes (mc_provider string o3OnAzure) = true
  /\ (exists baseUrl hostname,
        pc_baseUrl azureProvider = Some baseUrl
        /\ sampleHostname baseUrl = Returned hostname
        /\ startsWith hostname ("contoso" +:+ ".openai.azure.") = true)
  /\ azureOpenAIApiInstanceName string o3AzureArgs <> EmptyString
  /\ azureOpenAIApiDeploymentName string o3AzureArgs
     = mc_modelName string o3OnAzure
  /\ az_model string o3AzureArgs = mc_modelName string o3OnAzure
  /\ pc_apiKey azureProvider = Some "azure-key"
  /\ azureOpenAIApiKey string o3AzureArgs <> EmptyString
  /\ pc_azureApiVersion azureProvider = Some "2024-10-21"
  /\ (exists name names,
        pc_azureDeploymentNames azureProvider = Some (name :: names)).
Proof.
  exact (azure_model_needs_complete_configuration string "0.1"
           sampleProviderTypes sampleHostname azureProvider o3OnAzure
           o3AzureArgs eq_refl).
Defined.

Lemma anthropic_opus_sample :
  mc_provider string opusOnAnthropic = Anthropic sampleProviderTypes
  /\ a_model string opusArgs = mc_modelName string opusOnAnthropic
  /\ a_temperature string opusArgs = Some "0.1"
  /\ a_maxTokens string opusArgs = Some 4096
  /\ (isAnthropicOpusModel (mc_modelName string opusOnAnthropic) = true ->
      a_topP string opusArgs = None)
  /\ (isAnthropicOpusModel (mc_modelName string opusOnAnthropic) = false ->
      a_topP string opusArgs = Some "0.9").
Proof.
  exact (anthropic_opus_gets_no_topP string "0.1" sampleProviderTypes
           sampleHostname bedrockProvider opusOnAnthropic opusArgs eq_refl).
Defined.

Lemma bedrock_model_sample :
  mc_provider string sonnetOnBedrock = Bedrock sampleProviderTypes
  /\ pc_apiKey bedrockProvider = Some "AKIAEXAMPLE"
  /\ accessKeyId (b_credentials string sonnetArgs) <> EmptyString
  /\ pc_baseUrl bedrockProvider = Some "secret"
  /\ secretAccessKey (b_credentials string sonnetArgs) <> EmptyString
  /\ b_model string sonnetArgs = mc_modelName string sonnetOnBedrock
  /\ b_maxTokens string sonnetArgs = 4096
  /\ b_region string sonnetArgs
     = (if startsWith (b_model string sonnetArgs) "eu." then "eu-west-1"
        else if startsWith (b_model string sonnetArgs) "global."
             then "us-east-1"
             else "us-west-2").
Proof.
  exact (bedrock_model_credentials_and_region string "0.1"
           sampleProviderTypes sampleHostname bedrockProvider sonnetOnBedrock
           sonnetArgs eq_refl).
Defined.

Lemma attribution_headers_sample :
  mc_provider string gptOnOpenRouter = OpenRouter sampleProviderTypes
  /\ mc_provider string gptOnOpenRouter <> OpenAI sampleProviderTypes
  /\ openRouterHeaders
     = [("HTTP-Referer", "https://nanobrowser.ai");
        ("X-Title", "Nanobrowser")].
Proof.
  exact (attribution_headers_only_for_openrouter string "0.1"
           sampleProviderTypes sampleHostname openRouterProvider
           gptOnOpenRouter openRouterArgs openRouterHeaders
           eq_refl eq_refl).
Defined.

(** A call that is answered and a call that is refused. *)
Example generate_samples :
  generate string sampleInvoke sonnetArgs
    [ {| msg_type := "system"; msg_content := "Be brief." |};
      {| msg_type := "human"; msg_content := "Hello?" |} ]
  = Returned [{| g_text := "Hello"; g_message := "Hello" |}]
  /\ map bm_role
         (messages string
            (requestOf sonnetArgs
               [ {| msg_type := "system"; msg_content := "Be brief." |};
                 {| msg_type := "human"; msg_content := "Hello?" |} ]))
     = ["assistant"; "user"]
  /\ generate string sampleInvoke
       {| b_model := "anthropic.claude-opus-4-20250514-v1:0";
          b_region := "us-west-2";
          b_credentials := someCredentials;
          b_temperature := "0.1"; b_topP := "0.1"; b_maxTokens := 4096 |}
       []
     = Thrown "Failed to call Bedrock API: Bedrock API error: 403 Forbidden".
Proof. repeat split; vm_compute; reflexivity. Qed.

(** ** Llama responses *)

(** X26: the Llama wrapper rethrows the parent's error as it is and never
    fails on its own.  It returns the parent's generations in the same
    number, all but the first untouched; the first is replaced, text and
    message, only when its text is not empty and parses to a completion
    with a text that is not empty, and is otherwise returned as it came,
    also when the text is not JSON. *)
Theorem llamaGenerate_outcomes :
  forall (Message Options : Type) superGenerate parseCompletionText
         (msgs : list Message) (options : option Options),
    (forall e,
        superGenerate msgs options = Thrown e ->
        llamaGenerate Message Options superGenerate parseCompletionText
          msgs options
        = Thrown e)
    /\ (forall response,
          superGenerate msgs options = Returned response ->
          exists result,
            llamaGenerate Message Options superGenerate parseCompletionText
              msgs options
            = Returned result
            /\ length result = length response
            /\ tail result = tail response
            /\ (forall first,
                  head response = Some first ->
                  (exists text,
                      g_text first <> EmptyString
                      /\ parseCompletionText (g_text first)
                         = Returned (Some text)
                      /\ text <> EmptyString
                      /\ head result
                         = Some {| g_text := text; g_message := text |})
                  \/ (head result = Some first
                      /\ (g_text first = EmptyString
                          \/ (exists e,
                                parseCompletionText (g_text first)
                                = Thrown e)
                          \/ parseCompletionText (g_text first)
                             = Returned None
                          \/ parseCompletionText (g_text first)
                             = Returned (Some EmptyString))))).
Proof.
  intros Message Options superGenerate parseCompletionText msgs options.
  unfold llamaGenerate, run, tryCatch, bind, await, update, get, throw,
    skip, ret.
  split.
  - by intros e ->.
  - intros response ->. destruct response as [|first rest].
    + exists []. repeat split. intros first [=].
    + destruct (String.eqb_spec (g_text first) EmptyString) as [Hempty|Hne];
        cbn [negb].
      * exists (first :: rest). repeat split.
        intros ? [= <-]. right. split; [reflexivity|]. by left.
      * destruct (parseCompletionText (g_text first)) as [[text|]|e] eqn:Hp.
        -- destruct (String.eqb_spec text EmptyString) as [->|Htext].
           ++ exists (first :: rest). cbn. repeat split.
              intros ? [= <-]. right. split; [reflexivity|]. auto.
           ++ assert (Ht : Js.truthy (Some text) = Some text).
              { apply truthy_Some. by split. }
              rewrite Ht.
              exists ({| g_text := text; g_message := text |} :: rest).
              repeat split. intros ? [= <-]. left. by exists text.
        -- exists (first :: rest). cbn. repeat split.
           intros ? [= <-]. right. split; [reflexivity|]. auto.
        -- exists (first :: rest). cbn. repeat split.
           intros ? [= <-]. right. split; [reflexivity|].
           right. left. by exists e.
Qed.
